(** * Binary expression evaluator of the .NET debugger agent

    A shallow embedding of
    [third_party/cloud-debug-java/binary_expression_evaluator.cc]
    (compile phase and evaluate phase of [BinaryExpressionEvaluator]),
    of the parts of the value model it consumes, and of the evaluation
    coordinator protocol declared in [i_evalcoordinator.h]. *)

From Stdlib Require Import ZArith Bool List String Lia.
From Stdlib Require Import Floats.SpecFloat.
Import ListNotations.

Local Open Scope Z_scope.

(** ** HRESULT (winerror.h / the PAL): a signed 32-bit status code *)

Definition HRESULT := Z.

Definition S_OK : HRESULT := 0.
Definition E_NOTIMPL : HRESULT := -2147467263.   (* 0x80004001 *)
Definition E_FAIL : HRESULT := -2147467259.      (* 0x80004005 *)
Definition E_INVALIDARG : HRESULT := -2147024809. (* 0x80070057 *)

Definition FAILED (hr : HRESULT) : bool := hr <? 0.

(** A call [hr = f(..., &out)] into a collaborator followed by
    [if (FAILED(hr)) return hr;]: either the status failed, or the
    out-parameter holds a value. *)
Inductive outcome (A : Type) : Type :=
| Ok (a : A)
| Fail (hr : HRESULT).
Arguments Ok {A} a.
Arguments Fail {A} hr.

(** ** Diagnostics (error_messages.h) written to [std::ostream *err_stream] *)

Inductive message :=
| kTypeMismatch
| kExpressionNotSupported
| kFailedToEvalFirstSubExpr
| kFailedToEvalSecondSubExpr.

Definition ostream := list message.

Definition put (err_stream : ostream) (m : message) : ostream :=
  err_stream ++ [m].

Notation "s << m" := (put s m) (at level 50, left associativity).

(** ** CorElementType (cor.h) *)

Inductive CorElementType :=
| ELEMENT_TYPE_VOID
| ELEMENT_TYPE_BOOLEAN
| ELEMENT_TYPE_CHAR
| ELEMENT_TYPE_I1
| ELEMENT_TYPE_U1
| ELEMENT_TYPE_I2
| ELEMENT_TYPE_U2
| ELEMENT_TYPE_I4
| ELEMENT_TYPE_U4
| ELEMENT_TYPE_I8
| ELEMENT_TYPE_U8
| ELEMENT_TYPE_R4
| ELEMENT_TYPE_R8
| ELEMENT_TYPE_STRING
| ELEMENT_TYPE_VALUETYPE
| ELEMENT_TYPE_CLASS
| ELEMENT_TYPE_ARRAY
| ELEMENT_TYPE_I
| ELEMENT_TYPE_U
| ELEMENT_TYPE_OBJECT
| ELEMENT_TYPE_SZARRAY.

Definition CorElementType_eqb (a b : CorElementType) : bool :=
  match a, b with
  | ELEMENT_TYPE_VOID, ELEMENT_TYPE_VOID
  | ELEMENT_TYPE_BOOLEAN, ELEMENT_TYPE_BOOLEAN
  | ELEMENT_TYPE_CHAR, ELEMENT_TYPE_CHAR
  | ELEMENT_TYPE_I1, ELEMENT_TYPE_I1
  | ELEMENT_TYPE_U1, ELEMENT_TYPE_U1
  | ELEMENT_TYPE_I2, ELEMENT_TYPE_I2
  | ELEMENT_TYPE_U2, ELEMENT_TYPE_U2
  | ELEMENT_TYPE_I4, ELEMENT_TYPE_I4
  | ELEMENT_TYPE_U4, ELEMENT_TYPE_U4
  | ELEMENT_TYPE_I8, ELEMENT_TYPE_I8
  | ELEMENT_TYPE_U8, ELEMENT_TYPE_U8
  | ELEMENT_TYPE_R4, ELEMENT_TYPE_R4
  | ELEMENT_TYPE_R8, ELEMENT_TYPE_R8
  | ELEMENT_TYPE_STRING, ELEMENT_TYPE_STRING
  | ELEMENT_TYPE_VALUETYPE, ELEMENT_TYPE_VALUETYPE
  | ELEMENT_TYPE_CLASS, ELEMENT_TYPE_CLASS
  | ELEMENT_TYPE_ARRAY, ELEMENT_TYPE_ARRAY
  | ELEMENT_TYPE_I, ELEMENT_TYPE_I
  | ELEMENT_TYPE_U, ELEMENT_TYPE_U
  | ELEMENT_TYPE_OBJECT, ELEMENT_TYPE_OBJECT
  | ELEMENT_TYPE_SZARRAY, ELEMENT_TYPE_SZARRAY => true
  | _, _ => false
  end.

Record TypeSignature := {
  cor_type : CorElementType;
  type_name : string
}.

(** ** Operator tags *)

Module BinaryCSharpExpression.
Inductive Type_ :=
| add | sub | mul | div | mod_
| eq | ne | le | ge | lt | gt
| conditional_and | conditional_or
| bitwise_and | bitwise_or | bitwise_xor
| shl | shr_s | shr_u.
End BinaryCSharpExpression.

(** ** The C++ scalar types the computers are instantiated at *)

Inductive int_type := int32_t | uint32_t | int64_t | uint64_t.
Inductive fp_type := float_t | double_t.
Inductive num_type := Integral (Ti : int_type) | Floating (Tf : fp_type).
Inductive prim_type := bool_t | Num (T : num_type).

Coercion Integral : int_type >-> num_type.
Coercion Floating : fp_type >-> num_type.
Coercion Num : num_type >-> prim_type.

(** Payload of a [T] value: integers as [Z] within the range of the
    type, IEEE-754 binary32/binary64 numbers as [spec_float]. *)
Definition carrier (T : prim_type) : Type :=
  match T with
  | bool_t => bool
  | Num (Integral _) => Z
  | Num (Floating _) => spec_float
  end.

Definition is_unsigned (Ti : int_type) : bool :=
  match Ti with
  | uint32_t | uint64_t => true
  | int32_t | int64_t => false
  end.

Definition bits (Ti : int_type) : Z :=
  match Ti with
  | int32_t | uint32_t => 32
  | int64_t | uint64_t => 64
  end.

Definition min_value (Ti : int_type) : Z :=
  if is_unsigned Ti then 0 else - 2 ^ (bits Ti - 1).

Definition max_value (Ti : int_type) : Z :=
  if is_unsigned Ti then 2 ^ bits Ti - 1 else 2 ^ (bits Ti - 1) - 1.

Definition in_range (Ti : int_type) (z : Z) : Prop :=
  min_value Ti <= z <= max_value Ti.

(** Conversion of a mathematical integer to [Ti]: the representative of
    [z] modulo [2 ^ bits Ti] that lies in the range of [Ti]. *)
Definition wrap (Ti : int_type) (z : Z) : Z :=
  if is_unsigned Ti then z mod 2 ^ bits Ti
  else (z + 2 ^ (bits Ti - 1)) mod 2 ^ bits Ti - 2 ^ (bits Ti - 1).

(** <climits>.  [INT_MIN] is the same on every build of the agent.
    [LONG_MIN] is the limit of [long], whose width depends on the data
    model of the build: 64 bits on LP64 (the Linux build), 32 bits on
    LLP64 (the Windows build, for which the repository also carries
    code). *)
Definition INT_MIN : Z := -2147483648.

Class DataModel := { LONG_MIN : Z }.

Definition LP64 : DataModel := {| LONG_MIN := -9223372036854775808 |}.
Definition LLP64 : DataModel := {| LONG_MIN := -2147483648 |}.

(** IEEE-754 formats of [float_t] and [double_t]. *)
Definition prec (Tf : fp_type) : Z :=
  match Tf with float_t => 24 | double_t => 53 end.
Definition emax (Tf : fp_type) : Z :=
  match Tf with float_t => 128 | double_t => 1024 end.

(** [std::fmod] on one format: the exact remainder of the truncating
    division, carrying the sign of [x]; NaN when [x] is infinite or
    [y] is zero; [x] itself when [y] is infinite. *)
Definition fmod (Tf : fp_type) (x y : spec_float) : spec_float :=
  match x, y with
  | S754_nan, _ | _, S754_nan => S754_nan
  | S754_infinity _, _ => S754_nan
  | _, S754_zero _ => S754_nan
  | S754_zero _, _ => x
  | S754_finite _ _ _, S754_infinity _ => x
  | S754_finite sx mx ex, S754_finite _ my ey =>
      let e := Z.min ex ey in
      let r := Z.rem (Zpos mx * 2 ^ (ex - e)) (Zpos my * 2 ^ (ey - e)) in
      if r =? 0 then S754_zero sx
      else binary_normalize (prec Tf) (emax Tf) (cond_Zopp sx r) e sx
  end.

(** ** Operators of C++ on the scalar types *)

Definition arith_add (T : num_type) : carrier T -> carrier T -> carrier T :=
  match T with
  | Integral Ti => fun x y => wrap Ti (x + y)
  | Floating Tf => fun x y => SFadd (prec Tf) (emax Tf) x y
  end.

Definition arith_sub (T : num_type) : carrier T -> carrier T -> carrier T :=
  match T with
  | Integral Ti => fun x y => wrap Ti (x - y)
  | Floating Tf => fun x y => SFsub (prec Tf) (emax Tf) x y
  end.

Definition arith_mul (T : num_type) : carrier T -> carrier T -> carrier T :=
  match T with
  | Integral Ti => fun x y => wrap Ti (x * y)
  | Floating Tf => fun x y => SFmul (prec Tf) (emax Tf) x y
  end.

(** [x / y]: truncating on integers, IEEE division on floats. *)
Definition arith_div (T : num_type) : carrier T -> carrier T -> carrier T :=
  match T with
  | Integral Ti => fun x y => wrap Ti (Z.quot x y)
  | Floating Tf => fun x y => SFdiv (prec Tf) (emax Tf) x y
  end.

(** The six overloads of [ComputeModulo]: [x % y] on the integer
    types, [std::fmod] on the floating ones. *)
Definition ComputeModulo (T : num_type) : carrier T -> carrier T -> carrier T :=
  match T with
  | Integral Ti => fun x y => wrap Ti (Z.rem x y)
  | Floating Tf => fun x y => fmod Tf x y
  end.

Definition cmp_eq (T : num_type) : carrier T -> carrier T -> bool :=
  match T with
  | Integral _ => fun x y => x =? y
  | Floating _ => fun x y => SFeqb x y
  end.

Definition cmp_lt (T : num_type) : carrier T -> carrier T -> bool :=
  match T with
  | Integral _ => fun x y => x <? y
  | Floating _ => fun x y => SFltb x y
  end.

Definition cmp_le (T : num_type) : carrier T -> carrier T -> bool :=
  match T with
  | Integral _ => fun x y => x <=? y
  | Floating _ => fun x y => SFleb x y
  end.

(** [template<typename T> bool IsDivisionByZero(T divisor)] *)
Definition IsDivisionByZero (T : num_type) : carrier T -> bool :=
  match T with
  | Floating _ => fun _ => false
  | Integral _ => fun divisor => divisor =? 0
  end.

(** [template<typename T> bool IsDivisionOverflow(T value1, T value2)] *)
Definition IsDivisionOverflow_template {DM : DataModel} (T : num_type)
  : carrier T -> carrier T -> bool :=
  match T with
  | Floating _ => fun _ _ => false
  | Integral Ti => fun value1 value2 =>
      if is_unsigned Ti then false
      else if negb (value2 =? -1) then false
      else match Ti with
           | int64_t => value1 =? LONG_MIN
           | _ => value1 =? INT_MIN
           end
  end.

(** The call [IsDivisionOverflow(value1, value2)] in
    [ArithmeticComputer<T>]: the non-template overloads for [int32_t],
    [int64_t], [float_t] and [double_t] are exact matches and win over
    the template, which is left with [uint32_t] and [uint64_t]. *)
Definition IsDivisionOverflow {DM : DataModel} (T : num_type)
  : carrier T -> carrier T -> bool :=
  match T with
  | Integral int32_t => fun value1 value2 =>
      (value1 =? INT_MIN) && (value2 =? -1)
  | Integral int64_t => fun value1 value2 =>
      (value1 =? LONG_MIN) && (value2 =? -1)
  | Floating float_t => fun _ _ => false
  | Floating double_t => fun _ _ => false
  | Integral uint32_t => IsDivisionOverflow_template uint32_t
  | Integral uint64_t => IsDivisionOverflow_template uint64_t
  end.

(** [value1 << value2] and [value1 >> value2] on an integer type, for
    a count already masked into [0, bits Ti): the left shift keeps the
    low [bits Ti] bits, the right shift is arithmetic on the signed
    types and logical on the unsigned ones. *)
Definition shift_left (Ti : int_type) (value1 value2 : Z) : Z :=
  wrap Ti (Z.shiftl value1 value2).

Definition shift_right (Ti : int_type) (value1 value2 : Z) : Z :=
  Z.shiftr value1 value2.

(** ** The value model consumed by the evaluator *)

Definition CORDB_ADDRESS := Z.

(** The interface of the debug objects as the evaluator uses it:
    [new DbgPrimitive<T>(v)] (dbg_primitive.h),
    [NumericCompilerHelper::ExtractPrimitiveValue<T>]
    (compiler_helpers.h), [DbgString::GetString] (dbg_string.h) and
    [DbgObject::GetAddress] (dbg_object.h). *)
Class ObjectModel := {
  DbgObject : Type;
  DbgPrimitive : forall T : prim_type, carrier T -> DbgObject;
  ExtractPrimitiveValue : forall T : prim_type, DbgObject -> outcome (carrier T);
  GetString : DbgObject -> outcome string;
  GetAddress : DbgObject -> CORDB_ADDRESS
}.

(** Pointers to the member functions a node can be bound to. *)
Inductive Computer :=
| ptr_ArithmeticComputer (T : num_type)
| ptr_BitwiseComputer (T : int_type)
| ptr_ShiftComputer (T : int_type) (Bitmask : Z)
| ptr_ConditionalObjectComputer
| ptr_ConditionalStringComputer
| ptr_ConditionalBooleanComputer
| ptr_NumericalComparisonComputer (T : num_type).

(** ** Evaluate phase *)

Section Evaluator.
Context {DM : DataModel} {OM : ObjectModel}.

(** Whatever evaluating an operand may read and change besides the
    error stream: the debuggee, the coordinator, the object factory. *)
Context {World : Type}.

(** What a computer hands back: the returned status and the object
    stored through [result], if one was stored. *)
Definition computer_result : Type := HRESULT * option DbgObject.

Definition ArithmeticComputer (T : num_type)
    (type_ : BinaryCSharpExpression.Type_) (arg1 arg2 : DbgObject)
  : computer_result :=
  match ExtractPrimitiveValue T arg1 with
  | Fail hr => (hr, None)
  | Ok value1 =>
    match ExtractPrimitiveValue T arg2 with
    | Fail hr => (hr, None)
    | Ok value2 =>
      match type_ with
      | BinaryCSharpExpression.add =>
          (S_OK, Some (DbgPrimitive T (arith_add T value1 value2)))
      | BinaryCSharpExpression.sub =>
          (S_OK, Some (DbgPrimitive T (arith_sub T value1 value2)))
      | BinaryCSharpExpression.mul =>
          (S_OK, Some (DbgPrimitive T (arith_mul T value1 value2)))
      | BinaryCSharpExpression.mod_
      | BinaryCSharpExpression.div =>
          if IsDivisionByZero T value2 then (E_INVALIDARG, None)
          else if IsDivisionOverflow T value1 value2 then (E_INVALIDARG, None)
          else match type_ with
               | BinaryCSharpExpression.div =>
                   (S_OK, Some (DbgPrimitive T (arith_div T value1 value2)))
               | _ =>
                   (S_OK, Some (DbgPrimitive T (ComputeModulo T value1 value2)))
               end
      | _ => (E_NOTIMPL, None)
      end
    end
  end.

Definition BitwiseComputer (T : int_type)
    (type_ : BinaryCSharpExpression.Type_) (arg1 arg2 : DbgObject)
  : computer_result :=
  match ExtractPrimitiveValue T arg1 with
  | Fail hr => (hr, None)
  | Ok value1 =>
    match ExtractPrimitiveValue T arg2 with
    | Fail hr => (hr, None)
    | Ok value2 =>
      match type_ with
      | BinaryCSharpExpression.bitwise_and =>
          (S_OK, Some (DbgPrimitive T (Z.land value1 value2)))
      | BinaryCSharpExpression.bitwise_or =>
          (S_OK, Some (DbgPrimitive T (Z.lor value1 value2)))
      | BinaryCSharpExpression.bitwise_xor =>
          (S_OK, Some (DbgPrimitive T (Z.lxor value1 value2)))
      | _ => (E_NOTIMPL, None)
      end
    end
  end.

Definition ShiftComputer (T : int_type) (Bitmask : Z)
    (type_ : BinaryCSharpExpression.Type_) (arg1 arg2 : DbgObject)
  : computer_result :=
  match ExtractPrimitiveValue T arg1 with
  | Fail hr => (hr, None)
  | Ok value1 =>
    match ExtractPrimitiveValue int32_t arg2 with
    | Fail hr => (hr, None)
    | Ok value2 =>
      let value2 := Z.land value2 Bitmask in
      match type_ with
      | BinaryCSharpExpression.shl =>
          (S_OK, Some (DbgPrimitive T (shift_left T value1 value2)))
      | BinaryCSharpExpression.shr_s
      | BinaryCSharpExpression.shr_u =>
          (S_OK, Some (DbgPrimitive T (shift_right T value1 value2)))
      | _ => (E_NOTIMPL, None)
      end
    end
  end.

Definition ConditionalObjectComputer
    (type_ : BinaryCSharpExpression.Type_) (arg1 arg2 : DbgObject)
  : computer_result :=
  let has_same_address := GetAddress arg1 =? GetAddress arg2 in
  match type_ with
  | BinaryCSharpExpression.eq =>
      (S_OK, Some (DbgPrimitive bool_t has_same_address))
  | BinaryCSharpExpression.ne =>
      (S_OK, Some (DbgPrimitive bool_t has_same_address))
  | _ => (E_NOTIMPL, None)
  end.

(** [first_string.compare(second_string) == 0] *)
Definition compare_is_zero (first_string second_string : string) : bool :=
  match String.compare first_string second_string with
  | Eq => true
  | _ => false
  end.

Definition ConditionalStringComputer
    (type_ : BinaryCSharpExpression.Type_) (arg1 arg2 : DbgObject)
  : computer_result :=
  match GetString arg1 with
  | Fail hr => (hr, None)
  | Ok first_string =>
    match GetString arg2 with
    | Fail hr => (hr, None)
    | Ok second_string =>
      let is_equal := compare_is_zero first_string second_string in
      match type_ with
      | BinaryCSharpExpression.eq =>
          (S_OK, Some (DbgPrimitive bool_t is_equal))
      | BinaryCSharpExpression.ne =>
          (S_OK, Some (DbgPrimitive bool_t (negb is_equal)))
      | _ => (E_NOTIMPL, None)
      end
    end
  end.

Definition ConditionalBooleanComputer
    (type_ : BinaryCSharpExpression.Type_) (arg1 arg2 : DbgObject)
  : computer_result :=
  match ExtractPrimitiveValue bool_t arg1 with
  | Fail hr => (hr, None)
  | Ok boolean1 =>
    match ExtractPrimitiveValue bool_t arg2 with
    | Fail hr => (hr, None)
    | Ok boolean2 =>
      match type_ with
      | BinaryCSharpExpression.conditional_and
      | BinaryCSharpExpression.bitwise_and =>
          (S_OK, Some (DbgPrimitive bool_t (boolean1 && boolean2)))
      | BinaryCSharpExpression.conditional_or
      | BinaryCSharpExpression.bitwise_or =>
          (S_OK, Some (DbgPrimitive bool_t (boolean1 || boolean2)))
      | BinaryCSharpExpression.eq =>
          (S_OK, Some (DbgPrimitive bool_t (Bool.eqb boolean1 boolean2)))
      | BinaryCSharpExpression.ne
      | BinaryCSharpExpression.bitwise_xor =>
          (S_OK, Some (DbgPrimitive bool_t (xorb boolean1 boolean2)))
      | _ => (E_NOTIMPL, None)
      end
    end
  end.

Definition NumericalComparisonComputer (T : num_type)
    (type_ : BinaryCSharpExpression.Type_) (arg1 arg2 : DbgObject)
  : computer_result :=
  match ExtractPrimitiveValue T arg1 with
  | Fail hr => (hr, None)
  | Ok value1 =>
    match ExtractPrimitiveValue T arg2 with
    | Fail hr => (hr, None)
    | Ok value2 =>
      match type_ with
      | BinaryCSharpExpression.eq =>
          (S_OK, Some (DbgPrimitive bool_t (cmp_eq T value1 value2)))
      | BinaryCSharpExpression.ne
      | BinaryCSharpExpression.bitwise_xor =>
          (S_OK, Some (DbgPrimitive bool_t (negb (cmp_eq T value1 value2))))
      | BinaryCSharpExpression.le =>
          (S_OK, Some (DbgPrimitive bool_t (cmp_le T value1 value2)))
      | BinaryCSharpExpression.ge =>
          (S_OK, Some (DbgPrimitive bool_t (cmp_le T value2 value1)))
      | BinaryCSharpExpression.lt =>
          (S_OK, Some (DbgPrimitive bool_t (cmp_lt T value1 value2)))
      | BinaryCSharpExpression.gt =>
          (S_OK, Some (DbgPrimitive bool_t (cmp_lt T value2 value1)))
      | _ => (E_NOTIMPL, None)
      end
    end
  end.

(** [(this->*computer_)(arg1, arg2, result)] for a bound pointer. *)
Definition invoke (computer_ : Computer)
    (type_ : BinaryCSharpExpression.Type_) (arg1 arg2 : DbgObject)
  : computer_result :=
  match computer_ with
  | ptr_ArithmeticComputer T => ArithmeticComputer T type_ arg1 arg2
  | ptr_BitwiseComputer T => BitwiseComputer T type_ arg1 arg2
  | ptr_ShiftComputer T Bitmask => ShiftComputer T Bitmask type_ arg1 arg2
  | ptr_ConditionalObjectComputer => ConditionalObjectComputer type_ arg1 arg2
  | ptr_ConditionalStringComputer => ConditionalStringComputer type_ arg1 arg2
  | ptr_ConditionalBooleanComputer => ConditionalBooleanComputer type_ arg1 arg2
  | ptr_NumericalComparisonComputer T =>
      NumericalComparisonComputer T type_ arg1 arg2
  end.

(** The [ExpressionEvaluator] interface (expression_evaluator.h) as
    the binary node uses its operands: [Compile] reports a status and
    may write diagnostics, [GetStaticType] is the signature the
    operand has once compiled, [Evaluate] runs against the world and
    the error stream and yields an object or a failed status. *)
Record ExpressionEvaluator := {
  ee_Compile : ostream -> HRESULT * ostream;
  ee_GetStaticType : TypeSignature;
  ee_Evaluate : World * ostream -> outcome DbgObject * (World * ostream)
}.

(** The fields of [BinaryExpressionEvaluator]; [computer_ = None] is
    the [nullptr] the constructor leaves there. *)
Record BinaryExpressionEvaluator := {
  type_ : BinaryCSharpExpression.Type_;
  arg1_ : ExpressionEvaluator;
  arg2_ : ExpressionEvaluator;
  computer_ : option Computer;
  result_type_ : TypeSignature
}.

(** The tail of [Evaluate], from the declaration of [arg2_obj] on.
    The result is [None] when the call goes through a null
    [computer_], which C++ leaves undefined. *)
Definition Evaluate_second (this : BinaryExpressionEvaluator)
    (arg1_obj : DbgObject) (st : World * ostream)
  : option computer_result * (World * ostream) :=
  match ee_Evaluate (arg2_ this) st with
  | (Fail hr, (w, err_stream)) =>
      (Some (hr, None), (w, err_stream << kFailedToEvalSecondSubExpr))
  | (Ok arg2_obj, st2) =>
      (option_map (fun c => invoke c (type_ this) arg1_obj arg2_obj)
                  (computer_ this), st2)
  end.

Definition Evaluate (this : BinaryExpressionEvaluator)
    (st : World * ostream)
  : option computer_result * (World * ostream) :=
  match ee_Evaluate (arg1_ this) st with
  | (Fail hr, (w, err_stream)) =>
      (Some (hr, None), (w, err_stream << kFailedToEvalFirstSubExpr))
  | (Ok arg1_obj, st1) =>
      match type_ this with
      | BinaryCSharpExpression.conditional_and =>
          match ExtractPrimitiveValue bool_t arg1_obj with
          | Fail hr => (Some (hr, None), st1)
          | Ok boolean1 =>
              if negb boolean1
              then (Some (S_OK, Some (DbgPrimitive bool_t false)), st1)
              else Evaluate_second this arg1_obj st1
          end
      | BinaryCSharpExpression.conditional_or =>
          match ExtractPrimitiveValue bool_t arg1_obj with
          | Fail hr => (Some (hr, None), st1)
          | Ok boolean1 =>
              if boolean1
              then (Some (S_OK, Some (DbgPrimitive bool_t true)), st1)
              else Evaluate_second this arg1_obj st1
          end
      | _ => Evaluate_second this arg1_obj st1
      end
  end.

End Evaluator.

Arguments ExpressionEvaluator {OM} World.
Arguments BinaryExpressionEvaluator {OM} World.

(** ** Compile phase *)

(** The helpers of compiler_helpers.h that the compile phase calls: the classification predicates of
    [TypeCompilerHelper], [ConvertCorElementTypeToString], and
    [IsNumericallyPromotedToInt] and [BinaryNumericalPromotion] of
    [NumericCompilerHelper] (which may write to the error stream). *)
Class CompilerHelpers := {
  IsIntegralType : CorElementType -> bool;
  IsNumericalType : CorElementType -> bool;
  ConvertCorElementTypeToString : CorElementType -> outcome string;
  IsNumericallyPromotedToInt : CorElementType -> bool;
  BinaryNumericalPromotion :
    CorElementType -> CorElementType -> ostream ->
    option CorElementType * ostream;
  kBooleanClassName : string;
  TypeSignature_Object : TypeSignature
}.

Section Compiler.
Context {OM : ObjectModel} {CH : CompilerHelpers} {World : Type}.

Local Abbreviation Node := (BinaryExpressionEvaluator World).

Definition set_computer (this : Node) (c : Computer) : Node :=
  {| type_ := type_ this; arg1_ := arg1_ this; arg2_ := arg2_ this;
     computer_ := Some c; result_type_ := result_type_ this |}.

Definition set_result_type (this : Node) (t : TypeSignature) : Node :=
  {| type_ := type_ this; arg1_ := arg1_ this; arg2_ := arg2_ this;
     computer_ := computer_ this; result_type_ := t |}.

Definition set_result_cor_type (this : Node) (c : CorElementType) : Node :=
  set_result_type this
    {| cor_type := c; type_name := type_name (result_type_ this) |}.

Definition set_result_type_name (this : Node) (n : string) : Node :=
  set_result_type this
    {| cor_type := cor_type (result_type_ this); type_name := n |}.

(** What a compile method leaves behind: the returned status, the
    node with its updated fields, and the error stream. *)
Definition compile_result : Type := HRESULT * Node * ostream.

Definition CompileArithmetical (this : Node) (err_stream : ostream)
  : compile_result :=
  match BinaryNumericalPromotion
          (cor_type (ee_GetStaticType (arg1_ this)))
          (cor_type (ee_GetStaticType (arg2_ this))) err_stream with
  | (None, err_stream) => (E_FAIL, this, err_stream << kTypeMismatch)
  | (Some result, err_stream) =>
    let this := set_result_cor_type this result in
    match ConvertCorElementTypeToString result with
    | Fail hr => (hr, this, err_stream)
    | Ok name =>
      let this := set_result_type_name this name in
      match result with
      | ELEMENT_TYPE_I4 =>
          (S_OK, set_computer this (ptr_ArithmeticComputer int32_t), err_stream)
      | ELEMENT_TYPE_U4 =>
          (S_OK, set_computer this (ptr_ArithmeticComputer uint32_t), err_stream)
      | ELEMENT_TYPE_I8 =>
          (S_OK, set_computer this (ptr_ArithmeticComputer int64_t), err_stream)
      | ELEMENT_TYPE_U8 =>
          (S_OK, set_computer this (ptr_ArithmeticComputer uint64_t), err_stream)
      | ELEMENT_TYPE_R4 =>
          (S_OK, set_computer this (ptr_ArithmeticComputer float_t), err_stream)
      | ELEMENT_TYPE_R8 =>
          (S_OK, set_computer this (ptr_ArithmeticComputer double_t), err_stream)
      | _ => (E_FAIL, this, err_stream << kTypeMismatch)
      end
    end
  end.

Definition CompileBooleanConditional (this : Node) (err_stream : ostream)
  : compile_result :=
  if CorElementType_eqb (cor_type (ee_GetStaticType (arg1_ this)))
                        ELEMENT_TYPE_BOOLEAN
     && CorElementType_eqb (cor_type (ee_GetStaticType (arg2_ this)))
                           ELEMENT_TYPE_BOOLEAN
  then
    let this := set_computer this ptr_ConditionalBooleanComputer in
    (S_OK,
     set_result_type this
       {| cor_type := ELEMENT_TYPE_BOOLEAN; type_name := kBooleanClassName |},
     err_stream)
  else (E_FAIL, this, err_stream << kTypeMismatch).

Definition CompileRelational (this : Node) (err_stream : ostream)
  : compile_result :=
  let signature1 := ee_GetStaticType (arg1_ this) in
  let signature2 := ee_GetStaticType (arg2_ this) in
  let this := set_result_cor_type this ELEMENT_TYPE_BOOLEAN in
  let this := set_result_type_name this kBooleanClassName in
  if IsNumericalType (cor_type signature1)
     && IsNumericalType (cor_type signature2)
  then
    match BinaryNumericalPromotion
            (cor_type signature1) (cor_type signature1) err_stream with
    | (None, err_stream) => (E_FAIL, this, err_stream << kTypeMismatch)
    | (Some result, err_stream) =>
      match result with
      | ELEMENT_TYPE_I4 =>
          (S_OK, set_computer this (ptr_NumericalComparisonComputer int32_t),
           err_stream)
      | ELEMENT_TYPE_U4 =>
          (S_OK, set_computer this (ptr_NumericalComparisonComputer uint32_t),
           err_stream)
      | ELEMENT_TYPE_I8 =>
          (S_OK, set_computer this (ptr_NumericalComparisonComputer int64_t),
           err_stream)
      | ELEMENT_TYPE_U8 =>
          (S_OK, set_computer this (ptr_NumericalComparisonComputer uint64_t),
           err_stream)
      | ELEMENT_TYPE_R4 =>
          (S_OK, set_computer this (ptr_NumericalComparisonComputer float_t),
           err_stream)
      | ELEMENT_TYPE_R8 =>
          (S_OK, set_computer this (ptr_NumericalComparisonComputer double_t),
           err_stream)
      | _ => (E_FAIL, this, err_stream << kTypeMismatch)
      end
    end
  else
    match type_ this with
    | BinaryCSharpExpression.eq | BinaryCSharpExpression.ne =>
      if CorElementType_eqb (cor_type signature1) ELEMENT_TYPE_BOOLEAN
         && CorElementType_eqb (cor_type signature2) ELEMENT_TYPE_BOOLEAN
      then CompileBooleanConditional this err_stream
      else if CorElementType_eqb (cor_type signature1) ELEMENT_TYPE_STRING
              && CorElementType_eqb (cor_type signature2) ELEMENT_TYPE_STRING
      then (S_OK, set_computer this ptr_ConditionalStringComputer, err_stream)
      else if negb (IsNumericalType (cor_type signature1))
              && negb (IsNumericalType (cor_type signature2))
      then (S_OK, set_computer this ptr_ConditionalObjectComputer, err_stream)
      else (E_FAIL, this, err_stream << kTypeMismatch)
    | _ => (E_NOTIMPL, this, err_stream << kExpressionNotSupported)
    end.

Definition CompileLogical (this : Node) (err_stream : ostream)
  : compile_result :=
  let arg1_type := cor_type (ee_GetStaticType (arg1_ this)) in
  let arg2_type := cor_type (ee_GetStaticType (arg2_ this)) in
  if IsIntegralType arg1_type && IsIntegralType arg2_type then
    match BinaryNumericalPromotion arg1_type arg2_type err_stream with
    | (None, err_stream) => (E_FAIL, this, err_stream << kTypeMismatch)
    | (Some result, err_stream) =>
      let this := set_result_cor_type this result in
      match ConvertCorElementTypeToString result with
      | Fail hr => (hr, this, err_stream)
      | Ok name =>
        let this := set_result_type_name this name in
        match result with
        | ELEMENT_TYPE_I4 =>
            (S_OK, set_computer this (ptr_BitwiseComputer int32_t), err_stream)
        | ELEMENT_TYPE_U4 =>
            (S_OK, set_computer this (ptr_BitwiseComputer uint32_t), err_stream)
        | ELEMENT_TYPE_I8 =>
            (S_OK, set_computer this (ptr_BitwiseComputer int64_t), err_stream)
        | ELEMENT_TYPE_U8 =>
            (S_OK, set_computer this (ptr_BitwiseComputer uint64_t), err_stream)
        | _ => (E_FAIL, this, err_stream << kTypeMismatch)
        end
      end
    end
  else CompileBooleanConditional this err_stream.

Definition CompileShift (this : Node) (err_stream : ostream)
  : compile_result :=
  let arg1_type := cor_type (ee_GetStaticType (arg1_ this)) in
  let arg2_type := cor_type (ee_GetStaticType (arg2_ this)) in
  if negb (IsIntegralType arg1_type) && negb (IsIntegralType arg2_type)
  then (E_FAIL, this, err_stream << kTypeMismatch)
  else if negb (IsNumericallyPromotedToInt arg2_type)
          && negb (CorElementType_eqb arg2_type ELEMENT_TYPE_I4)
  then (E_FAIL, this, err_stream << kTypeMismatch)
  else
    let arg1_type :=
      if IsNumericallyPromotedToInt arg1_type then ELEMENT_TYPE_I4
      else arg1_type in
    let this := set_result_cor_type this arg1_type in
    match ConvertCorElementTypeToString arg1_type with
    | Fail hr => (hr, this, err_stream)
    | Ok name =>
      let this := set_result_type_name this name in
      match arg1_type with
      | ELEMENT_TYPE_I4 =>
          (S_OK, set_computer this (ptr_ShiftComputer int32_t 0x1f), err_stream)
      | ELEMENT_TYPE_U4 =>
          (S_OK, set_computer this (ptr_ShiftComputer uint32_t 0x1f), err_stream)
      | ELEMENT_TYPE_I8 =>
          (S_OK, set_computer this (ptr_ShiftComputer int64_t 0x3f), err_stream)
      | ELEMENT_TYPE_U8 =>
          (S_OK, set_computer this (ptr_ShiftComputer uint64_t 0x3f), err_stream)
      | _ =>
          (* [return false;] in a function returning HRESULT *)
          (Z.b2z false, this, err_stream << kTypeMismatch)
      end
    end.

Definition Compile (this : Node) (err_stream : ostream) : compile_result :=
  let (hr, err_stream) := ee_Compile (arg1_ this) err_stream in
  if FAILED hr then (hr, this, err_stream)
  else
    let (hr, err_stream) := ee_Compile (arg2_ this) err_stream in
    if FAILED hr then (hr, this, err_stream)
    else
      match type_ this with
      | BinaryCSharpExpression.add
      | BinaryCSharpExpression.sub
      | BinaryCSharpExpression.mul
      | BinaryCSharpExpression.div
      | BinaryCSharpExpression.mod_ => CompileArithmetical this err_stream
      | BinaryCSharpExpression.eq
      | BinaryCSharpExpression.ne
      | BinaryCSharpExpression.le
      | BinaryCSharpExpression.ge
      | BinaryCSharpExpression.lt
      | BinaryCSharpExpression.gt => CompileRelational this err_stream
      | BinaryCSharpExpression.conditional_and
      | BinaryCSharpExpression.conditional_or =>
          CompileBooleanConditional this err_stream
      | BinaryCSharpExpression.bitwise_and
      | BinaryCSharpExpression.bitwise_or
      | BinaryCSharpExpression.bitwise_xor => CompileLogical this err_stream
      | BinaryCSharpExpression.shl
      | BinaryCSharpExpression.shr_s
      | BinaryCSharpExpression.shr_u => CompileShift this err_stream
      end.

(** The node the constructor builds. *)
Definition new_BinaryExpressionEvaluator
    (type : BinaryCSharpExpression.Type_)
    (arg1 arg2 : ExpressionEvaluator World) : Node :=
  {| type_ := type; arg1_ := arg1; arg2_ := arg2; computer_ := None;
     result_type_ := TypeSignature_Object |}.

End Compiler.

(** ** The helpers and the value model, as the specification gives them *)

Module SpecModel.

(** Modelled from the spec: [NumericCompilerHelper::IsNumericallyPromotedToInt]
    of compiler_helpers.h, which is not among the sources; the kinds
    narrower than int, which widen to int. *)
Definition IsNumericallyPromotedToInt (t : CorElementType) : bool :=
  match t with
  | ELEMENT_TYPE_CHAR | ELEMENT_TYPE_I1 | ELEMENT_TYPE_U1
  | ELEMENT_TYPE_I2 | ELEMENT_TYPE_U2 => true
  | _ => false
  end.

(** Modelled from the spec: [TypeCompilerHelper::IsIntegralType] of
    compiler_helpers.h, which is not among the sources; int, uint, long,
    ulong and the kinds narrower than int. *)
Definition IsIntegralType (t : CorElementType) : bool :=
  match t with
  | ELEMENT_TYPE_I4 | ELEMENT_TYPE_U4
  | ELEMENT_TYPE_I8 | ELEMENT_TYPE_U8 => true
  | _ => IsNumericallyPromotedToInt t
  end.

(** Modelled from the spec: [TypeCompilerHelper::IsNumericalType] of
    compiler_helpers.h, which is not among the sources; the integral
    kinds, float and double. *)
Definition IsNumericalType (t : CorElementType) : bool :=
  match t with
  | ELEMENT_TYPE_R4 | ELEMENT_TYPE_R8 => true
  | _ => IsIntegralType t
  end.

Definition is_signed_integral (t : CorElementType) : bool :=
  match t with
  | ELEMENT_TYPE_I1 | ELEMENT_TYPE_I2
  | ELEMENT_TYPE_I4 | ELEMENT_TYPE_I8 => true
  | _ => false
  end.

Definition either (t a b : CorElementType) : bool :=
  CorElementType_eqb a t || CorElementType_eqb b t.

Definition other (t a b : CorElementType) : CorElementType :=
  if CorElementType_eqb a t then b else a.

(** Modelled from the spec: [NumericCompilerHelper::BinaryNumericalPromotion]
    of compiler_helpers.h, which is not among the sources; the rules of
    section 4.1 in their order of precedence.  Both kinds must be
    numerical; double wins, then float; ulong refuses a signed partner;
    then long; uint with a signed partner gives long, the signed kind
    that holds every uint value; anything narrower gives int. *)
Definition Promote (a b : CorElementType) : option CorElementType :=
  if negb (IsNumericalType a && IsNumericalType b) then None
  else if either ELEMENT_TYPE_R8 a b then Some ELEMENT_TYPE_R8
  else if either ELEMENT_TYPE_R4 a b then Some ELEMENT_TYPE_R4
  else if either ELEMENT_TYPE_U8 a b then
    if is_signed_integral (other ELEMENT_TYPE_U8 a b) then None
    else Some ELEMENT_TYPE_U8
  else if either ELEMENT_TYPE_I8 a b then Some ELEMENT_TYPE_I8
  else if either ELEMENT_TYPE_U4 a b then
    if is_signed_integral (other ELEMENT_TYPE_U4 a b)
    then Some ELEMENT_TYPE_I8
    else Some ELEMENT_TYPE_U4
  else Some ELEMENT_TYPE_I4.

(** Modelled from the spec: [TypeCompilerHelper::ConvertCorElementTypeToString]
    of compiler_helpers.h, which is not among the sources; the display
    name of a kind, defined for the primitive kinds, strings and
    objects. *)
Definition ConvertCorElementTypeToString (t : CorElementType)
  : outcome string :=
  match t with
  | ELEMENT_TYPE_BOOLEAN => Ok "System.Boolean"%string
  | ELEMENT_TYPE_CHAR => Ok "System.Char"%string
  | ELEMENT_TYPE_I1 => Ok "System.SByte"%string
  | ELEMENT_TYPE_U1 => Ok "System.Byte"%string
  | ELEMENT_TYPE_I2 => Ok "System.Int16"%string
  | ELEMENT_TYPE_U2 => Ok "System.UInt16"%string
  | ELEMENT_TYPE_I4 => Ok "System.Int32"%string
  | ELEMENT_TYPE_U4 => Ok "System.UInt32"%string
  | ELEMENT_TYPE_I8 => Ok "System.Int64"%string
  | ELEMENT_TYPE_U8 => Ok "System.UInt64"%string
  | ELEMENT_TYPE_R4 => Ok "System.Single"%string
  | ELEMENT_TYPE_R8 => Ok "System.Double"%string
  | ELEMENT_TYPE_I => Ok "System.IntPtr"%string
  | ELEMENT_TYPE_U => Ok "System.UIntPtr"%string
  | ELEMENT_TYPE_STRING => Ok "System.String"%string
  | ELEMENT_TYPE_OBJECT => Ok "System.Object"%string
  | _ => Fail E_FAIL
  end.

(** Modelled from the spec: the classification predicates and the
    promotion of compiler_helpers.h, which is not among the sources,
    gathered as the helper interface of the compile phase. *)
#[export] Instance helpers : CompilerHelpers :=
  Build_CompilerHelpers
    IsIntegralType IsNumericalType ConvertCorElementTypeToString
    IsNumericallyPromotedToInt
    (fun a b err_stream => (Promote a b, err_stream))
    "System.Boolean"%string
    {| cor_type := ELEMENT_TYPE_OBJECT; type_name := "System.Object"%string |}.

(** Modelled from the spec: the debug objects of dbg_object.h,
    dbg_primitive.h and dbg_reference_object.h, which are not among
    the sources; a primitive with its payload, a string with its
    content, or another reference object, the last two at an address
    of the debuggee. *)
Inductive Object :=
| Primitive (T : prim_type) (value_ : carrier T)
| String_ (address_ : CORDB_ADDRESS) (string_obj_ : string)
| Reference (address_ : CORDB_ADDRESS).

(** Modelled from the spec: the conversion inside the typed
    extraction, [static_cast<T>] from a payload of type [U].  C++
    leaves a floating value outside the range of an integer [T]
    undefined; it is wrapped here like an integer. *)
Definition cast (U T : prim_type) : carrier U -> carrier T :=
  match U, T with
  | bool_t, bool_t => fun b => b
  | bool_t, Num (Integral _) => fun b => Z.b2z b
  | bool_t, Num (Floating Tf) => fun b =>
      binary_normalize (prec Tf) (emax Tf) (Z.b2z b) 0 false
  | Num (Integral _), bool_t => fun z => negb (z =? 0)
  | Num (Integral _), Num (Integral Ti) => fun z => wrap Ti z
  | Num (Integral _), Num (Floating Tf) => fun z =>
      binary_normalize (prec Tf) (emax Tf) z 0 false
  | Num (Floating _), bool_t => fun f =>
      match f with S754_zero _ => false | _ => true end
  | Num (Floating _), Num (Integral Ti) => fun f =>
      match f with
      | S754_finite s m e => wrap Ti (cond_Zopp s (Z.shiftl (Zpos m) e))
      | _ => 0
      end
  | Num (Floating _), Num (Floating Tf) => fun f =>
      match f with
      | S754_finite s m e =>
          binary_normalize (prec Tf) (emax Tf) (cond_Zopp s (Zpos m)) e s
      | _ => f
      end
  end.

(** Modelled from the spec: [NumericCompilerHelper::ExtractPrimitiveValue]
    of compiler_helpers.h, which is not among the sources; the typed
    extraction of a primitive payload of section 6, converting the
    payload to the requested type and failing on anything that is
    not a primitive. *)
Definition ExtractPrimitiveValue (T : prim_type) (o : Object)
  : outcome (carrier T) :=
  match o with
  | Primitive U v => Ok (cast U T v)
  | _ => Fail E_FAIL
  end.

(** Modelled from the spec: [DbgString::GetString], declared in
    dbg_string.h and defined outside the sources; the text content
    of a string object, failing if the object is not a string. *)
Definition GetString (o : Object) : outcome string :=
  match o with
  | String_ _ s => Ok s
  | _ => Fail E_FAIL
  end.

(** Modelled from the spec: [DbgObject::GetAddress] of dbg_object.h,
    which is not among the sources; the identity of the value. *)
Definition GetAddress (o : Object) : CORDB_ADDRESS :=
  match o with
  | Primitive _ _ => 0
  | String_ a _ => a
  | Reference a => a
  end.

#[export] Instance objects : ObjectModel :=
  Build_ObjectModel Object Primitive ExtractPrimitiveValue GetString GetAddress.

End SpecModel.

(** ** Operands with an evaluation counter *)

Module Counting.

(** How often the left and the right operand have been evaluated. *)
Record counters := { left_count : nat; right_count : nat }.

Inductive side := Left | Right.

Definition bump (which : side) (c : counters) : counters :=
  match which with
  | Left => {| left_count := S (left_count c); right_count := right_count c |}
  | Right => {| left_count := left_count c; right_count := S (right_count c) |}
  end.

(** An operand that compiles, has static type [t], and whose
    evaluation counts itself and yields [r]. *)
Definition operand {OM : ObjectModel} (which : side) (t : CorElementType)
    (r : outcome DbgObject) : ExpressionEvaluator counters :=
  {| ee_Compile := fun err_stream => (S_OK, err_stream);
     ee_GetStaticType := {| cor_type := t; type_name := EmptyString |};
     ee_Evaluate := fun st => (r, (bump which (fst st), snd st)) |}.

Definition fresh : counters * ostream :=
  ({| left_count := 0; right_count := 0 |}, []).

End Counting.

(** ** Evaluation coordinator *)

Module Coordinator.

Definition thread := nat.
Definition value := Z.

Inductive phase := Idle | EvalRequested | Completed | ExceptionThrown.

(** The evaluation state of one coordinator: where the protocol
    stands, the workers blocked inside [WaitForEvaluation], and the
    slot the callback thread leaves the result in. *)
Record state := {
  phase_ : phase;
  blocked : list thread;
  result_slot : option value
}.

Definition initial : state :=
  {| phase_ := Idle; blocked := []; result_slot := None |}.

Definition pending (s : state) : bool :=
  match phase_ s with Idle => false | _ => true end.

Inductive reply :=
| CoordinatorBusy
| Value (v : value)
| Exception.

Inductive event :=
| WaitForEvaluation (worker : thread)
| SignalEvaluationComplete (v : value)
| SignalExceptionThrown
| Wake (worker : thread).

Definition remove_thread (t : thread) (l : list thread) : list thread :=
  filter (fun u => negb (Nat.eqb u t)) l.

(** Modelled from the spec: the implementation of [IEvalCoordinator]
    (eval_coordinator.cc), of which the sources hold only the
    declaration i_evalcoordinator.h, where the operations are called
    [WaitForEval], [SignalFinishedEval] and [HandleException]; the
    state machine of section 4.4, one protocol event at a time.  [WaitForEvaluation] on an idle
    coordinator requests the evaluation and blocks the worker, and on
    a coordinator with an evaluation outstanding fails at once with
    [CoordinatorBusy]; the two signals of the callback thread record
    the outcome of the requested evaluation; [Wake] lets a blocked
    worker leave with that outcome, which returns the coordinator to
    idle.  The second component lists what is returned to whom. *)
Definition step (s : state) (e : event) : state * list (thread * reply) :=
  match e with
  | WaitForEvaluation w =>
      if pending s then (s, [(w, CoordinatorBusy)])
      else ({| phase_ := EvalRequested; blocked := w :: blocked s;
               result_slot := None |}, [])
  | SignalEvaluationComplete v =>
      match phase_ s with
      | EvalRequested =>
          ({| phase_ := Completed; blocked := blocked s;
              result_slot := Some v |}, [])
      | _ => (s, [])
      end
  | SignalExceptionThrown =>
      match phase_ s with
      | EvalRequested =>
          ({| phase_ := ExceptionThrown; blocked := blocked s;
              result_slot := None |}, [])
      | _ => (s, [])
      end
  | Wake w =>
      if existsb (Nat.eqb w) (blocked s) then
        match phase_ s, result_slot s with
        | Completed, Some v =>
            ({| phase_ := Idle; blocked := remove_thread w (blocked s);
                result_slot := None |}, [(w, Value v)])
        | ExceptionThrown, _ =>
            ({| phase_ := Idle; blocked := remove_thread w (blocked s);
                result_slot := None |}, [(w, Exception)])
        | _, _ => (s, [])
        end
      else (s, [])
  end.

(** An idle coordinator blocks no worker, and no coordinator blocks
    more than one. *)
Definition consistent (s : state) : Prop :=
  (List.length (blocked s) <= 1)%nat
  /\ (pending s = false -> blocked s = []).

(** The coordinator after a sequence of protocol events. *)
Fixpoint run (s : state) (es : list event) : state :=
  match es with
  | [] => s
  | e :: es => run (fst (step s e)) es
  end.

End Coordinator.

(** ** Worked nodes *)

Module Examples.
#[local] Existing Instance LP64.
#[local] Existing Instance SpecModel.objects.
#[local] Existing Instance SpecModel.helpers.

Definition boolean (b : bool) : SpecModel.Object := SpecModel.Primitive bool_t b.
Definition int32 (z : Z) : SpecModel.Object := SpecModel.Primitive int32_t z.
Definition uint32 (z : Z) : SpecModel.Object := SpecModel.Primitive uint32_t z.
Definition int64 (z : Z) : SpecModel.Object := SpecModel.Primitive int64_t z.
Definition float64 (f : spec_float) : SpecModel.Object :=
  SpecModel.Primitive double_t f.

(** 1.0, +0.0 and +infinity in binary64. *)
Definition one : spec_float := S754_finite false 4503599627370496 (-52).
Definition zero : spec_float := S754_zero false.
Definition infinity : spec_float := S754_infinity false.

(** A fresh binary node over two counting operands of static kinds
    [t1] and [t2] that evaluate to [r1] and [r2]. *)
Definition node (type : BinaryCSharpExpression.Type_)
    (t1 : CorElementType) (r1 : outcome SpecModel.Object)
    (t2 : CorElementType) (r2 : outcome SpecModel.Object)
  : BinaryExpressionEvaluator Counting.counters :=
  new_BinaryExpressionEvaluator type
    (Counting.operand Counting.Left t1 r1)
    (Counting.operand Counting.Right t2 r2).

(** The node as [Compile] leaves it, with the returned status. *)
Definition compiled (this : BinaryExpressionEvaluator Counting.counters)
  : BinaryExpressionEvaluator Counting.counters :=
  snd (fst (Compile this [])).

Definition compile_status
    (this : BinaryExpressionEvaluator Counting.counters) : HRESULT :=
  fst (fst (Compile this [])).

(** The counters after both operands have been evaluated once, and
    after the left one only. *)
Definition both_once : Counting.counters :=
  {| Counting.left_count := 1; Counting.right_count := 1 |}.
Definition left_only : Counting.counters :=
  {| Counting.left_count := 1; Counting.right_count := 0 |}.

(** Whether evaluating the node from fresh counters has evaluated
    its right operand. *)
Definition right_evaluated
    (this : BinaryExpressionEvaluator Counting.counters) : bool :=
  (0 <? Counting.right_count (fst (snd (Evaluate this Counting.fresh))))%nat.

End Examples.

(** ** Vocabulary of the specification *)

(** The exact integer an [add], [sub] or [mul] stands for. *)
Definition exact_result (type_ : BinaryCSharpExpression.Type_) (x y : Z) : Z :=
  match type_ with
  | BinaryCSharpExpression.add => x + y
  | BinaryCSharpExpression.sub => x - y
  | BinaryCSharpExpression.mul => x * y
  | _ => 0
  end.

Definition is_arithmetic (type_ : BinaryCSharpExpression.Type_) : bool :=
  match type_ with
  | BinaryCSharpExpression.add | BinaryCSharpExpression.sub
  | BinaryCSharpExpression.mul | BinaryCSharpExpression.div
  | BinaryCSharpExpression.mod_ => true
  | _ => false
  end.

Definition is_div_or_mod (type_ : BinaryCSharpExpression.Type_) : bool :=
  match type_ with
  | BinaryCSharpExpression.div | BinaryCSharpExpression.mod_ => true
  | _ => false
  end.

Definition is_shift (type_ : BinaryCSharpExpression.Type_) : bool :=
  match type_ with
  | BinaryCSharpExpression.shl | BinaryCSharpExpression.shr_s
  | BinaryCSharpExpression.shr_u => true
  | _ => false
  end.

Definition is_ordering (type_ : BinaryCSharpExpression.Type_) : bool :=
  match type_ with
  | BinaryCSharpExpression.lt | BinaryCSharpExpression.le
  | BinaryCSharpExpression.gt | BinaryCSharpExpression.ge => true
  | _ => false
  end.

Definition is_eq_or_ne (type_ : BinaryCSharpExpression.Type_) : bool :=
  match type_ with
  | BinaryCSharpExpression.eq | BinaryCSharpExpression.ne => true
  | _ => false
  end.

(** The inputs on which the specification has [div] and [mod] fail:
    on an integer kind a zero divisor, or on a signed one the minimum
    value over minus one; on a floating kind none. *)
Definition div_rejected (T : num_type) : carrier T -> carrier T -> bool :=
  match T with
  | Integral Ti => fun value1 value2 =>
      (value2 =? 0)
      || (negb (is_unsigned Ti) && (value1 =? min_value Ti) && (value2 =? -1))
  | Floating _ => fun _ _ => false
  end.

(** The one place where the data model enters: the guard of
    [int64_t] reads [LONG_MIN], which is the minimum of the kind only
    where [long] has 64 bits. *)
Definition long_covers {DM : DataModel} (T : num_type) : Prop :=
  T = Integral int64_t -> LONG_MIN = min_value int64_t.

(** The shift-count mask of the specification: five bits for the
    32-bit kinds, six for the 64-bit ones. *)
Definition shift_mask (Ti : int_type) : Z :=
  match bits Ti with
  | 32 => 0x1F
  | _ => 0x3F
  end.

(** What a shift by [count] bits means on the integers. *)
Definition shifted (type_ : BinaryCSharpExpression.Type_) (Ti : int_type)
    (x count : Z) : Z :=
  match type_ with
  | BinaryCSharpExpression.shl => wrap Ti (x * 2 ^ count)
  | _ => x / 2 ^ count
  end.

(** The static kinds of the two operands of a node. *)
Definition kind1 {OM : ObjectModel} {World : Type}
    (this : BinaryExpressionEvaluator World) : CorElementType :=
  cor_type (ee_GetStaticType (arg1_ this)).

Definition kind2 {OM : ObjectModel} {World : Type}
    (this : BinaryExpressionEvaluator World) : CorElementType :=
  cor_type (ee_GetStaticType (arg2_ this)).

(** The working kind of a shift: the kind of the left operand, widened
    to int when it is narrower. *)
Definition working_kind {OM : ObjectModel} {CH : CompilerHelpers}
    {World : Type} (this : BinaryExpressionEvaluator World) : CorElementType :=
  if IsNumericallyPromotedToInt (kind1 this) then ELEMENT_TYPE_I4
  else kind1 this.

(** The instantiation a promoted kind stands for. *)
Definition num_type_of (t : CorElementType) : option num_type :=
  match t with
  | ELEMENT_TYPE_I4 => Some (Integral int32_t)
  | ELEMENT_TYPE_U4 => Some (Integral uint32_t)
  | ELEMENT_TYPE_I8 => Some (Integral int64_t)
  | ELEMENT_TYPE_U8 => Some (Integral uint64_t)
  | ELEMENT_TYPE_R4 => Some (Floating float_t)
  | ELEMENT_TYPE_R8 => Some (Floating double_t)
  | _ => None
  end.

(** ** Vocabulary for the dispatch of computers *)

Definition is_conditional (type_ : BinaryCSharpExpression.Type_) : bool :=
  match type_ with
  | BinaryCSharpExpression.conditional_and
  | BinaryCSharpExpression.conditional_or => true
  | _ => false
  end.

Definition is_bitwise (type_ : BinaryCSharpExpression.Type_) : bool :=
  match type_ with
  | BinaryCSharpExpression.bitwise_and | BinaryCSharpExpression.bitwise_or
  | BinaryCSharpExpression.bitwise_xor => true
  | _ => false
  end.

Definition is_relational (type_ : BinaryCSharpExpression.Type_) : bool :=
  is_eq_or_ne type_ || is_ordering type_.

(** The scalar type of the [DbgPrimitive] a computer stores. *)
Definition produces (c : Computer) : prim_type :=
  match c with
  | ptr_ArithmeticComputer T => T
  | ptr_BitwiseComputer T => T
  | ptr_ShiftComputer T _ => T
  | ptr_ConditionalObjectComputer
  | ptr_ConditionalStringComputer
  | ptr_ConditionalBooleanComputer
  | ptr_NumericalComparisonComputer _ => bool_t
  end.

(** The element kind a scalar type stands for. *)
Definition kind_of (T : prim_type) : CorElementType :=
  match T with
  | bool_t => ELEMENT_TYPE_BOOLEAN
  | Num (Integral int32_t) => ELEMENT_TYPE_I4
  | Num (Integral uint32_t) => ELEMENT_TYPE_U4
  | Num (Integral int64_t) => ELEMENT_TYPE_I8
  | Num (Integral uint64_t) => ELEMENT_TYPE_U8
  | Num (Floating float_t) => ELEMENT_TYPE_R4
  | Num (Floating double_t) => ELEMENT_TYPE_R8
  end.

(** The operators each compile method is called for, paired with the
    computers it can bind. *)
Definition allowed (c : Computer) (type_ : BinaryCSharpExpression.Type_)
  : bool :=
  match c with
  | ptr_ArithmeticComputer _ => is_arithmetic type_
  | ptr_BitwiseComputer _ => is_bitwise type_
  | ptr_ShiftComputer _ _ => is_shift type_
  | ptr_ConditionalObjectComputer
  | ptr_ConditionalStringComputer => is_eq_or_ne type_
  | ptr_ConditionalBooleanComputer =>
      is_conditional type_ || is_bitwise type_ || is_eq_or_ne type_
  | ptr_NumericalComparisonComputer _ => is_relational type_
  end.

(** A compile method answered [S_OK] and bound a computer satisfying
    [P] whose values have the kind recorded in [result_type_]. *)
Definition bound_as {OM : ObjectModel} {World : Type} (P : Computer -> Prop)
    (r : HRESULT * BinaryExpressionEvaluator World * ostream) : Prop :=
  fst (fst r) = S_OK
  /\ exists c : Computer,
       computer_ (snd (fst r)) = Some c /\ P c
       /\ kind_of (produces c) = cor_type (result_type_ (snd (fst r))).

(** A compile method left [computer_] alone and answered with a
    failing status, or with the status of a failed
    [ConvertCorElementTypeToString]. *)
Definition refused {OM : ObjectModel} {CH : CompilerHelpers} {World : Type}
    (this : BinaryExpressionEvaluator World)
    (r : HRESULT * BinaryExpressionEvaluator World * ostream) : Prop :=
  computer_ (snd (fst r)) = computer_ this
  /\ (FAILED (fst (fst r)) = true
      \/ exists t : CorElementType,
           ConvertCorElementTypeToString t = Fail (fst (fst r))).

(** Some extraction the computers perform on the two operands failed
    with the status [hr]. *)
Definition extraction_failed {OM : ObjectModel} (arg1 arg2 : DbgObject)
    (hr : HRESULT) : Prop :=
  (exists T : prim_type,
      ExtractPrimitiveValue T arg1 = Fail hr
      \/ ExtractPrimitiveValue T arg2 = Fail hr)
  \/ GetString arg1 = Fail hr \/ GetString arg2 = Fail hr.

(** * Properties *)

(** ** Integer conversion *)

Lemma pow2_bits_pos (Ti : int_type) : 0 < 2 ^ bits Ti.
Proof. destruct Ti; reflexivity. Qed.

Lemma pow2_bits_split (Ti : int_type) : 2 ^ bits Ti = 2 * 2 ^ (bits Ti - 1).
Proof. destruct Ti; reflexivity. Qed.

Lemma wrap_in_range (Ti : int_type) (z : Z) : in_range Ti (wrap Ti z).
Proof.
  pose proof (pow2_bits_pos Ti) as Hpos.
  pose proof (pow2_bits_split Ti) as Hsplit.
  unfold in_range, wrap, min_value, max_value.
  destruct (is_unsigned Ti).
  - pose proof (Z.mod_pos_bound z _ Hpos). lia.
  - pose proof (Z.mod_pos_bound (z + 2 ^ (bits Ti - 1)) _ Hpos). lia.
Qed.

Lemma wrap_congruent (Ti : int_type) (z : Z) :
  wrap Ti z mod 2 ^ bits Ti = z mod 2 ^ bits Ti.
Proof.
  pose proof (pow2_bits_pos Ti) as Hpos.
  unfold wrap. destruct (is_unsigned Ti).
  - apply Z.mod_mod. lia.
  - rewrite Zminus_mod_idemp_l. f_equal. lia.
Qed.

Lemma wrap_small (Ti : int_type) (z : Z) : in_range Ti z -> wrap Ti z = z.
Proof.
  pose proof (pow2_bits_split Ti) as Hsplit.
  unfold in_range, wrap, min_value, max_value.
  destruct (is_unsigned Ti); intros H.
  - apply Z.mod_small. lia.
  - rewrite Z.mod_small; lia.
Qed.

Section Properties.
Context {DM : DataModel} {OM : ObjectModel} {CH : CompilerHelpers}
        {World : Type}.

Local Abbreviation Node := (BinaryExpressionEvaluator World).

(** ** From [Evaluate] to the bound computer *)

Lemma Evaluate_invokes (this : Node) (st st1 st2 : World * ostream)
    (o1 o2 : DbgObject) (c : Computer) :
  type_ this <> BinaryCSharpExpression.conditional_and ->
  type_ this <> BinaryCSharpExpression.conditional_or ->
  ee_Evaluate (arg1_ this) st = (Ok o1, st1) ->
  ee_Evaluate (arg2_ this) st1 = (Ok o2, st2) ->
  computer_ this = Some c ->
  Evaluate this st = (Some (invoke c (type_ this) o1 o2), st2).
Proof.
  intros Hand Hor H1 H2 Hc.
  unfold Evaluate. rewrite H1.
  assert (Evaluate_second this o1 st1
          = (Some (invoke c (type_ this) o1 o2), st2)) as Hsecond.
  { unfold Evaluate_second. rewrite H2, Hc. reflexivity. }
  destruct (type_ this); try exact Hsecond; congruence.
Qed.

(** ** Division guards *)

Lemma IsDivisionOverflow_signed (Ti : int_type) (value1 value2 : Z) :
  long_covers Ti ->
  IsDivisionOverflow Ti value1 value2
  = negb (is_unsigned Ti) && (value1 =? min_value Ti) && (value2 =? -1).
Proof.
  intros Hlong. destruct Ti; try reflexivity.
  simpl. now rewrite (Hlong eq_refl).
Qed.

Lemma IsDivisionOverflow_unsigned (Ti : int_type) (value1 value2 : Z) :
  is_unsigned Ti = true -> IsDivisionOverflow Ti value1 value2 = false.
Proof. destruct Ti; intros Hu; try discriminate Hu; reflexivity. Qed.

(** [INT_MIN] is the minimum of [int32_t]; [LONG_MIN] is the minimum
    of [int64_t] on LP64 and that of [int32_t] on LLP64. *)
Lemma climits_minima :
  INT_MIN = min_value int32_t
  /\ @LONG_MIN LP64 = min_value int64_t
  /\ @LONG_MIN LLP64 = min_value int32_t.
Proof. repeat split. Qed.

Lemma guards_agree (T : num_type) (value1 value2 : carrier T) :
  long_covers T ->
  IsDivisionByZero T value2 || IsDivisionOverflow T value1 value2
  = div_rejected T value1 value2.
Proof.
  intros Hlong. destruct T as [Ti | Tf].
  - rewrite IsDivisionOverflow_signed; [reflexivity |].
    intros E. apply Hlong. now rewrite E.
  - destruct Tf; reflexivity.
Qed.

(** [div] and [mod] in terms of the two guards of the code, on any
    data model. *)
Lemma ArithmeticComputer_guards (T : num_type)
    (type_ : BinaryCSharpExpression.Type_) (arg1 arg2 : DbgObject)
    (value1 value2 : carrier T) :
  is_div_or_mod type_ = true ->
  ExtractPrimitiveValue T arg1 = Ok value1 ->
  ExtractPrimitiveValue T arg2 = Ok value2 ->
  ArithmeticComputer T type_ arg1 arg2
  = if IsDivisionByZero T value2 || IsDivisionOverflow T value1 value2
    then (E_INVALIDARG, None)
    else (S_OK,
          Some (DbgPrimitive T
                  match type_ with
                  | BinaryCSharpExpression.div => arith_div T value1 value2
                  | _ => ComputeModulo T value1 value2
                  end)).
Proof.
  intros Hop H1 H2. unfold ArithmeticComputer. rewrite H1, H2.
  destruct type_; try discriminate Hop;
    destruct (IsDivisionByZero T value2),
             (IsDivisionOverflow T value1 value2); reflexivity.
Qed.

Lemma ArithmeticComputer_div_mod (T : num_type)
    (type_ : BinaryCSharpExpression.Type_) (arg1 arg2 : DbgObject)
    (value1 value2 : carrier T) :
  long_covers T ->
  is_div_or_mod type_ = true ->
  ExtractPrimitiveValue T arg1 = Ok value1 ->
  ExtractPrimitiveValue T arg2 = Ok value2 ->
  ArithmeticComputer T type_ arg1 arg2
  = if div_rejected T value1 value2 then (E_INVALIDARG, None)
    else (S_OK,
          Some (DbgPrimitive T
                  match type_ with
                  | BinaryCSharpExpression.div => arith_div T value1 value2
                  | _ => ComputeModulo T value1 value2
                  end)).
Proof.
  intros Hlong Hop H1 H2.
  rewrite (ArithmeticComputer_guards T type_ arg1 arg2 value1 value2 Hop H1 H2).
  now rewrite guards_agree.
Qed.

(** X17. Where [long] has 64 bits, or on any kind other than
    [int64_t]: a [div] or [mod] node bound to [ArithmeticComputer<T>] whose
    operands evaluate and extract to [value1] and [value2] returns
    [E_INVALIDARG] and stores no result when [value2] is zero on an
    integer kind, or when the kind is signed, [value1] is its minimum
    and [value2] is -1; in every other case, and so always on
    [float_t] and [double_t], it returns [S_OK] with the quotient,
    respectively the remainder ([std::fmod] on the floating kinds).
    On every data model, neither guard ever fires on a floating kind,
    nor the overflow guard on an unsigned kind. *)
Lemma div_mod_rejects_exactly_zero_and_overflow
    (this : Node) (T : num_type) (st st1 st2 : World * ostream)
    (o1 o2 : DbgObject) (value1 value2 : carrier T) :
  long_covers T ->
  is_div_or_mod (type_ this) = true ->
  computer_ this = Some (ptr_ArithmeticComputer T) ->
  ee_Evaluate (arg1_ this) st = (Ok o1, st1) ->
  ee_Evaluate (arg2_ this) st1 = (Ok o2, st2) ->
  ExtractPrimitiveValue T o1 = Ok value1 ->
  ExtractPrimitiveValue T o2 = Ok value2 ->
  Evaluate this st
  = (Some (if div_rejected T value1 value2 then (E_INVALIDARG, None)
           else (S_OK,
                 Some (DbgPrimitive T
                         match type_ this with
                         | BinaryCSharpExpression.div =>
                             arith_div T value1 value2
                         | _ => ComputeModulo T value1 value2
                         end))), st2)
  /\ FAILED E_INVALIDARG = true
  /\ (forall (Tf : fp_type) (x y : spec_float),
         IsDivisionByZero Tf y = false /\ IsDivisionOverflow Tf x y = false)
  /\ (forall (Ti : int_type) (x y : Z),
         is_unsigned Ti = true -> IsDivisionOverflow Ti x y = false).
Proof.
  intros Hlong Hop Hc He1 He2 Hx1 Hx2.
  split; [| split; [reflexivity | split]];
    [| intros [|] x y; split; reflexivity
     | intros Ti x y Hu; now apply IsDivisionOverflow_unsigned].
  assert (type_ this <> BinaryCSharpExpression.conditional_and) as Hand
    by (intros E; rewrite E in Hop; discriminate).
  assert (type_ this <> BinaryCSharpExpression.conditional_or) as Hor
    by (intros E; rewrite E in Hop; discriminate).
  rewrite (Evaluate_invokes this st st1 st2 o1 o2 _ Hand Hor He1 He2 Hc).
  simpl.
  now rewrite (ArithmeticComputer_div_mod T _ _ _ value1 value2 Hlong).
Qed.

(** C10. [ArithmeticComputer] on an integer kind, both operands
    extracted: [add], [sub] and [mul] return [S_OK] with a value in
    the range of the kind that is congruent modulo [2 ^ bits] to the
    exact sum, difference or product; an arithmetic operator that
    does not return [S_OK] is [div] or [mod], and these two do reject
    a zero divisor. *)
Theorem add_sub_mul_always_succeed
    (Ti : int_type) (type_ : BinaryCSharpExpression.Type_)
    (arg1 arg2 : DbgObject) (value1 value2 : Z) :
  is_arithmetic type_ = true ->
  ExtractPrimitiveValue Ti arg1 = Ok value1 ->
  ExtractPrimitiveValue Ti arg2 = Ok value2 ->
  (is_div_or_mod type_ = false ->
   exists r : Z,
     ArithmeticComputer Ti type_ arg1 arg2 = (S_OK, Some (DbgPrimitive Ti r))
     /\ in_range Ti r
     /\ r mod 2 ^ bits Ti = exact_result type_ value1 value2 mod 2 ^ bits Ti)
  /\ (fst (ArithmeticComputer Ti type_ arg1 arg2) <> S_OK ->
      is_div_or_mod type_ = true)
  /\ (is_div_or_mod type_ = true -> value2 = 0 ->
      ArithmeticComputer Ti type_ arg1 arg2 = (E_INVALIDARG, None)).
Proof.
  intros Hop H1 H2. repeat split.
  - intros Hnd. exists (wrap Ti (exact_result type_ value1 value2)).
    split; [| split; [apply wrap_in_range | apply wrap_congruent]].
    unfold ArithmeticComputer. rewrite H1, H2.
    destruct type_; try discriminate Hop; try discriminate Hnd; reflexivity.
  - intros Hne. destruct type_; try discriminate Hop; try reflexivity;
      exfalso; apply Hne; unfold ArithmeticComputer; rewrite H1, H2;
      reflexivity.
  - intros Hdm Hz. subst value2.
    rewrite (ArithmeticComputer_guards Ti _ _ _ value1 0 Hdm H1 H2).
    reflexivity.
Qed.

(** ** Shift counts *)

Lemma mask_is_modulo (Ti : int_type) (count : Z) :
  Z.land count (shift_mask Ti) = count mod bits Ti.
Proof.
  destruct Ti; unfold shift_mask; simpl bits; cbv iota.
  - exact (Z.land_ones count 5 ltac:(lia)).
  - exact (Z.land_ones count 5 ltac:(lia)).
  - exact (Z.land_ones count 6 ltac:(lia)).
  - exact (Z.land_ones count 6 ltac:(lia)).
Qed.

Lemma masked_count_bounds (Ti : int_type) (count : Z) :
  0 <= Z.land count (shift_mask Ti) < bits Ti.
Proof.
  rewrite mask_is_modulo. apply Z.mod_pos_bound. destruct Ti; reflexivity.
Qed.

Lemma ShiftComputer_shifted (Ti : int_type) (Bitmask : Z)
    (type_ : BinaryCSharpExpression.Type_) (arg1 arg2 : DbgObject)
    (value1 count : Z) :
  is_shift type_ = true ->
  0 <= Z.land count Bitmask ->
  ExtractPrimitiveValue Ti arg1 = Ok value1 ->
  ExtractPrimitiveValue int32_t arg2 = Ok count ->
  ShiftComputer Ti Bitmask type_ arg1 arg2
  = (S_OK,
     Some (DbgPrimitive Ti (shifted type_ Ti value1 (Z.land count Bitmask)))).
Proof.
  intros Hop Hpos H1 H2. unfold ShiftComputer. rewrite H1, H2.
  destruct type_; try discriminate Hop; cbv zeta;
    unfold shifted, shift_left, shift_right;
    now rewrite ?Z.shiftl_mul_pow2, ?Z.shiftr_div_pow2 by assumption.
Qed.

Lemma CompileShift_binds (this : BinaryExpressionEvaluator World)
    (err_stream : ostream) :
  computer_ (snd (fst (CompileShift this err_stream))) = computer_ this
  \/ exists Ti : int_type,
       num_type_of (working_kind this) = Some (Integral Ti)
       /\ computer_ (snd (fst (CompileShift this err_stream)))
          = Some (ptr_ShiftComputer Ti (shift_mask Ti)).
Proof.
  unfold CompileShift, working_kind, kind1.
  destruct (negb (IsIntegralType _) && negb (IsIntegralType _));
    [now left |].
  destruct (negb (IsNumericallyPromotedToInt _) && negb _); [now left |].
  destruct (ConvertCorElementTypeToString _); [| now left].
  destruct (if IsNumericallyPromotedToInt _ then _ else _);
    try (now left); right.
  - now exists int32_t.
  - now exists uint32_t.
  - now exists int64_t.
  - now exists uint64_t.
Qed.

(** A shift whose working kind is int, uint, long or ulong, whose
    count kind is acceptable and whose result kind has a name is
    compiled to the shift computer of that kind with its mask. *)
Lemma CompileShift_binds_masked (this : BinaryExpressionEvaluator World)
    (err_stream : ostream) (name : string) (Ti : int_type) :
  IsIntegralType (kind1 this) || IsIntegralType (kind2 this) = true ->
  IsNumericallyPromotedToInt (kind2 this) = true
  \/ kind2 this = ELEMENT_TYPE_I4 ->
  num_type_of (working_kind this) = Some (Integral Ti) ->
  ConvertCorElementTypeToString (working_kind this) = Ok name ->
  CompileShift this err_stream
  = (S_OK,
     set_computer
       (set_result_type_name
          (set_result_cor_type this (working_kind this)) name)
       (ptr_ShiftComputer Ti (shift_mask Ti)),
     err_stream).
Proof.
  unfold working_kind, kind1, kind2, CompileShift.
  intros Hint Hcount Hnum Hname. cbv zeta.
  assert (negb (IsIntegralType (cor_type (ee_GetStaticType (arg1_ this))))
          && negb (IsIntegralType (cor_type (ee_GetStaticType (arg2_ this))))
          = false) as ->.
  { rewrite <- negb_orb, Hint. reflexivity. }
  assert (negb (IsNumericallyPromotedToInt
                  (cor_type (ee_GetStaticType (arg2_ this))))
          && negb (CorElementType_eqb
                     (cor_type (ee_GetStaticType (arg2_ this)))
                     ELEMENT_TYPE_I4) = false) as ->.
  { destruct Hcount as [-> | ->]; [reflexivity | apply andb_false_r]. }
  rewrite Hname. revert Hnum.
  destruct (if IsNumericallyPromotedToInt _ then _ else _);
    intros Hnum; try discriminate Hnum; injection Hnum as <-; reflexivity.
Qed.

(** C4. A shift whose working kind [T] (the kind of the left operand,
    widened to int when narrower) is int, uint, long or ulong, whose
    count kind is int or narrower and whose result kind has a name is
    compiled by [CompileShift] with [S_OK] to
    [ShiftComputer<T, shift_mask T>], and [CompileShift] binds no
    other computer, the mask being 0x1F on the 32-bit kinds and 0x3F
    on the 64-bit ones; and for [shl], [shr_s]
    and [shr_u] that computer, once the left operand is extracted at
    [T] and the count as [int32_t], returns [S_OK] with the left value
    shifted by [count & mask], which is [count mod bits T] and lies in
    [0, bits T) whatever the sign or size of [count]; two counts with
    the same masked value give the same result. *)
Theorem shift_count_masked
    (Ti : int_type) (type_ : BinaryCSharpExpression.Type_)
    (arg1 arg2 : DbgObject) (value1 count : Z) :
  is_shift type_ = true ->
  ExtractPrimitiveValue Ti arg1 = Ok value1 ->
  ExtractPrimitiveValue int32_t arg2 = Ok count ->
  (forall (this : BinaryExpressionEvaluator World) (err_stream : ostream)
          (name : string) (Tj : int_type),
      IsIntegralType (kind1 this) || IsIntegralType (kind2 this) = true ->
      IsNumericallyPromotedToInt (kind2 this) = true
      \/ kind2 this = ELEMENT_TYPE_I4 ->
      num_type_of (working_kind this) = Some (Integral Tj) ->
      ConvertCorElementTypeToString (working_kind this) = Ok name ->
      CompileShift this err_stream
      = (S_OK,
         set_computer
           (set_result_type_name
              (set_result_cor_type this (working_kind this)) name)
           (ptr_ShiftComputer Tj (shift_mask Tj)),
         err_stream))
  /\ (forall (this : BinaryExpressionEvaluator World) (err_stream : ostream),
      computer_ (snd (fst (CompileShift this err_stream))) = computer_ this
      \/ exists Tj : int_type,
           num_type_of (working_kind this) = Some (Integral Tj)
           /\ computer_ (snd (fst (CompileShift this err_stream)))
              = Some (ptr_ShiftComputer Tj (shift_mask Tj)))
  /\ shift_mask Ti = (if bits Ti =? 32 then 0x1F else 0x3F)
  /\ ShiftComputer Ti (shift_mask Ti) type_ arg1 arg2
     = (S_OK,
        Some (DbgPrimitive Ti
                (shifted type_ Ti value1 (Z.land count (shift_mask Ti)))))
  /\ Z.land count (shift_mask Ti) = count mod bits Ti
  /\ 0 <= Z.land count (shift_mask Ti) < bits Ti
  /\ (forall (arg2' : DbgObject) (count' : Z),
         ExtractPrimitiveValue int32_t arg2' = Ok count' ->
         Z.land count' (shift_mask Ti) = Z.land count (shift_mask Ti) ->
         ShiftComputer Ti (shift_mask Ti) type_ arg1 arg2'
         = ShiftComputer Ti (shift_mask Ti) type_ arg1 arg2).
Proof.
  intros Hop H1 H2.
  pose proof (masked_count_bounds Ti count) as Hb.
  split; [exact CompileShift_binds_masked |].
  split; [exact CompileShift_binds |].
  split; [destruct Ti; reflexivity |].
  split; [apply ShiftComputer_shifted; tauto |].
  split; [apply mask_is_modulo |].
  split; [exact Hb |].
  intros arg2' count' H2' Hsame.
  rewrite (ShiftComputer_shifted Ti _ type_ arg1 arg2 value1 count)
    by tauto.
  rewrite (ShiftComputer_shifted Ti _ type_ arg1 arg2' value1 count')
    by (try rewrite Hsame; tauto).
  now rewrite Hsame.
Qed.

(** ** Short-circuit evaluation *)

(** C1. Once the left operand has been evaluated to [o1], leaving
    the state [st1]: a [conditional_and] whose left value extracts to
    [false] returns [S_OK] with [false], and a [conditional_or] whose
    left value extracts to [true] returns [S_OK] with [true], both in
    the state [st1] and whatever the right operand is, which is
    therefore not evaluated; a [conditional_and] whose left value is
    [true], a [conditional_or] whose left value is [false], and every
    other operator evaluate the right operand next, in the state
    [st1], and then call the bound computer on the two objects. *)
Theorem short_circuit_and_operand_order
    (this : BinaryExpressionEvaluator World) (st st1 : World * ostream)
    (o1 : DbgObject) :
  ee_Evaluate (arg1_ this) st = (Ok o1, st1) ->
  (type_ this = BinaryCSharpExpression.conditional_and ->
   ExtractPrimitiveValue bool_t o1 = Ok false ->
   Evaluate this st = (Some (S_OK, Some (DbgPrimitive bool_t false)), st1))
  /\ (type_ this = BinaryCSharpExpression.conditional_or ->
      ExtractPrimitiveValue bool_t o1 = Ok true ->
      Evaluate this st = (Some (S_OK, Some (DbgPrimitive bool_t true)), st1))
  /\ ((type_ this = BinaryCSharpExpression.conditional_and
       /\ ExtractPrimitiveValue bool_t o1 = Ok true)
      \/ (type_ this = BinaryCSharpExpression.conditional_or
          /\ ExtractPrimitiveValue bool_t o1 = Ok false)
      \/ (type_ this <> BinaryCSharpExpression.conditional_and
          /\ type_ this <> BinaryCSharpExpression.conditional_or) ->
      Evaluate this st
      = match ee_Evaluate (arg2_ this) st1 with
        | (Fail hr, (w, err_stream)) =>
            (Some (hr, None), (w, err_stream << kFailedToEvalSecondSubExpr))
        | (Ok o2, st2) =>
            (option_map (fun c => invoke c (type_ this) o1 o2)
                        (computer_ this), st2)
        end).
Proof.
  intros H1. unfold Evaluate, Evaluate_second. rewrite H1.
  split; [| split].
  - intros Hand Hx. now rewrite Hand, Hx.
  - intros Hor Hx. now rewrite Hor, Hx.
  - intros [[Hand Hx] | [[Hor Hx] | [Hand Hor]]].
    + rewrite Hx. now rewrite Hand.
    + rewrite Hx. now rewrite Hor.
    + destruct (type_ this); try reflexivity; congruence.
Qed.

(** ** Reference comparison *)

Lemma ConditionalObjectComputer_ne_is_eq (arg1 arg2 : DbgObject) :
  ConditionalObjectComputer BinaryCSharpExpression.ne arg1 arg2
  = ConditionalObjectComputer BinaryCSharpExpression.eq arg1 arg2.
Proof. reflexivity. Qed.

Lemma ConditionalObjectComputer_eq (arg1 arg2 : DbgObject) :
  ConditionalObjectComputer BinaryCSharpExpression.eq arg1 arg2
  = (S_OK, Some (DbgPrimitive bool_t (GetAddress arg1 =? GetAddress arg2))).
Proof. reflexivity. Qed.

(** ** String comparison *)

Lemma string_compare_refl (s : string) : String.compare s s = Eq.
Proof.
  induction s as [| a s IH]; simpl; [reflexivity |].
  unfold Ascii.compare. now rewrite N.compare_refl.
Qed.

Lemma compare_is_zero_true (s1 s2 : string) :
  compare_is_zero s1 s2 = true <-> s1 = s2.
Proof.
  unfold compare_is_zero. split.
  - destruct (String.compare s1 s2) eqn:Hc; try discriminate.
    intros _. now apply String.compare_eq_iff.
  - intros ->. now rewrite string_compare_refl.
Qed.

(** C8. [ConditionalStringComputer] for [eq] and [ne]: a failure of
    [GetString] on the first operand, or else on the second, is the
    returned status and nothing is stored; otherwise the computer
    returns [S_OK] with a boolean that, for [eq], is true exactly when
    the two contents are the same string and, for [ne], exactly when
    they are not.  Only the contents enter: the addresses of the two
    objects play no part. *)
Theorem string_operands_compared_by_content
    (type_ : BinaryCSharpExpression.Type_) (arg1 arg2 : DbgObject) :
  is_eq_or_ne type_ = true ->
  (forall hr, GetString arg1 = Fail hr ->
              ConditionalStringComputer type_ arg1 arg2 = (hr, None))
  /\ (forall s1 hr, GetString arg1 = Ok s1 -> GetString arg2 = Fail hr ->
                    ConditionalStringComputer type_ arg1 arg2 = (hr, None))
  /\ (forall s1 s2, GetString arg1 = Ok s1 -> GetString arg2 = Ok s2 ->
        exists b : bool,
          ConditionalStringComputer type_ arg1 arg2
          = (S_OK, Some (DbgPrimitive bool_t b))
          /\ (type_ = BinaryCSharpExpression.eq -> (b = true <-> s1 = s2))
          /\ (type_ = BinaryCSharpExpression.ne -> (b = true <-> s1 <> s2))).
Proof.
  intros Hop. unfold ConditionalStringComputer. split; [| split].
  - intros hr H1. now rewrite H1.
  - intros s1 hr H1 H2. now rewrite H1, H2.
  - intros s1 s2 H1 H2. rewrite H1, H2.
    pose proof (compare_is_zero_true s1 s2) as Hiff.
    destruct type_; try discriminate Hop.
    + exists (compare_is_zero s1 s2). split; [reflexivity |].
      split; [intros _; exact Hiff | discriminate].
    + exists (negb (compare_is_zero s1 s2)). split; [reflexivity |].
      split; [discriminate | intros _].
      rewrite negb_true_iff, <- not_true_iff_false. tauto.
Qed.

(** ** Shift compilation *)

(** The last case of the switch in [CompileShift]: a left kind that
    passed both guards and is none of int, uint, long, ulong gets the
    diagnostic of a type mismatch and the status 0. *)
Lemma CompileShift_default_case (this : BinaryExpressionEvaluator World)
    (err_stream : ostream) (name : string) :
  IsIntegralType (kind2 this) = true ->
  IsNumericallyPromotedToInt (kind2 this) = true
  \/ kind2 this = ELEMENT_TYPE_I4 ->
  IsNumericallyPromotedToInt (kind1 this) = false ->
  ConvertCorElementTypeToString (kind1 this) = Ok name ->
  match kind1 this with
  | ELEMENT_TYPE_I4 | ELEMENT_TYPE_U4
  | ELEMENT_TYPE_I8 | ELEMENT_TYPE_U8 => False
  | _ => True
  end ->
  CompileShift this err_stream
  = (S_OK,
     set_result_type_name (set_result_cor_type this (kind1 this)) name,
     err_stream << kTypeMismatch)
  /\ FAILED S_OK = false.
Proof.
  unfold kind1, kind2, CompileShift. intros Hint2 Hcount Hnarrow Hname Hkind.
  split; [| reflexivity].
  rewrite Hint2, Hnarrow, Hname, andb_false_r.
  replace (negb (IsNumericallyPromotedToInt (cor_type (ee_GetStaticType (arg2_ this))))
           && negb (CorElementType_eqb (cor_type (ee_GetStaticType (arg2_ this)))
                      ELEMENT_TYPE_I4)) with false
    by (destruct Hcount as [-> | ->]; [reflexivity | symmetry; apply andb_false_r]).
  cbv zeta.
  destruct (cor_type (ee_GetStaticType (arg1_ this)));
    try contradiction; reflexivity.
Qed.

(** ** Relational compilation *)

Lemma set_fields_keep_computer (this : BinaryExpressionEvaluator World)
    (c : CorElementType) (n : string) :
  computer_ (set_result_type_name (set_result_cor_type this c) n)
  = computer_ this.
Proof. reflexivity. Qed.

(** On two numerical operands the comparison kind comes from
    promoting the kind of the first operand with itself. *)
Lemma CompileRelational_numerical (this : BinaryExpressionEvaluator World)
    (err_stream err_stream' : ostream) (result : CorElementType)
    (T : num_type) :
  IsNumericalType (kind1 this) && IsNumericalType (kind2 this) = true ->
  BinaryNumericalPromotion (kind1 this) (kind1 this) err_stream
  = (Some result, err_stream') ->
  num_type_of result = Some T ->
  fst (CompileRelational this err_stream) = (S_OK,
    set_computer
      (set_result_type_name
         (set_result_cor_type this ELEMENT_TYPE_BOOLEAN) kBooleanClassName)
      (ptr_NumericalComparisonComputer T)).
Proof.
  unfold kind1, kind2, CompileRelational. intros Hnum Hp HT.
  cbv zeta. rewrite Hnum, Hp.
  destruct result; try discriminate HT; inversion HT; reflexivity.
Qed.

Lemma CompileRelational_ordering (this : BinaryExpressionEvaluator World)
    (err_stream : ostream) :
  is_ordering (type_ this) = true ->
  IsNumericalType (kind1 this) && IsNumericalType (kind2 this) = false ->
  CompileRelational this err_stream
  = (E_NOTIMPL,
     set_result_type_name
       (set_result_cor_type this ELEMENT_TYPE_BOOLEAN) kBooleanClassName,
     err_stream << kExpressionNotSupported).
Proof.
  unfold kind1, kind2, CompileRelational. intros Hop Hnum.
  cbv zeta. rewrite Hnum.
  change (type_ (set_result_type_name _ _)) with (type_ this).
  destruct (type_ this); try discriminate Hop; reflexivity.
Qed.

(** C7. An ordering operator ([lt], [le], [gt], [ge]) whose operands
    are not both of numerical kind: [CompileRelational], and with it
    [Compile] once both operands have compiled, returns [E_NOTIMPL],
    a failing status other than the [E_FAIL] of a type mismatch,
    appends [kExpressionNotSupported] and nothing else to the error
    stream, and leaves [computer_] as it was. *)
Theorem ordering_needs_numerical_operands
    (this : BinaryExpressionEvaluator World) (err_stream : ostream) :
  is_ordering (type_ this) = true ->
  IsNumericalType (kind1 this) && IsNumericalType (kind2 this) = false ->
  (exists this',
      CompileRelational this err_stream
      = (E_NOTIMPL, this', err_stream << kExpressionNotSupported)
      /\ computer_ this' = computer_ this)
  /\ (forall hr1 err1 hr2 err2,
         ee_Compile (arg1_ this) err_stream = (hr1, err1) ->
         FAILED hr1 = false ->
         ee_Compile (arg2_ this) err1 = (hr2, err2) ->
         FAILED hr2 = false ->
         exists this',
           Compile this err_stream
           = (E_NOTIMPL, this', err2 << kExpressionNotSupported)
           /\ computer_ this' = computer_ this)
  /\ FAILED E_NOTIMPL = true
  /\ E_NOTIMPL <> E_FAIL.
Proof.
  intros Hop Hnum. split; [| split; [| split]].
  - eexists. split; [now apply CompileRelational_ordering | reflexivity].
  - intros hr1 err1 hr2 err2 Hc1 Hf1 Hc2 Hf2.
    eexists. split; [| apply set_fields_keep_computer].
    unfold Compile. rewrite Hc1, Hf1, Hc2, Hf2.
    rewrite <- (CompileRelational_ordering this err2 Hop Hnum).
    destruct (type_ this); try discriminate Hop; reflexivity.
  - reflexivity.
  - discriminate.
Qed.

End Properties.

(** ** Coordinator protocol *)

Module CoordinatorProperties.
Import Coordinator.

Lemma remove_only_waiter (w : thread) (l : list thread) :
  (List.length l <= 1)%nat -> existsb (Nat.eqb w) l = true ->
  remove_thread w l = [].
Proof.
  destruct l as [| u [| u' l]]; simpl; intros Hlen Hin;
    [discriminate | | lia].
  rewrite orb_false_r in Hin. apply Nat.eqb_eq in Hin. subst u.
  now rewrite Nat.eqb_refl.
Qed.

Lemma step_consistent (s : state) (e : event) :
  consistent s -> consistent (fst (step s e)).
Proof.
  intros Hs. pose proof Hs as [Hlen Hidle].
  destruct e as [w | v | | w]; simpl.
  - destruct (pending s) eqn:Hp; simpl; [exact Hs |].
    rewrite (Hidle eq_refl). split; [simpl; lia | discriminate].
  - destruct (phase_ s) eqn:Hph; simpl; try exact Hs.
    split; [exact Hlen | discriminate].
  - destruct (phase_ s) eqn:Hph; simpl; try exact Hs.
    split; [exact Hlen | discriminate].
  - destruct (existsb (Nat.eqb w) (blocked s)) eqn:Hin; [| exact Hs].
    destruct (phase_ s) eqn:Hph; simpl; try exact Hs.
    + destruct (result_slot s); simpl; [| exact Hs].
      rewrite (remove_only_waiter w _ Hlen Hin). split; [simpl; lia | easy].
    + rewrite (remove_only_waiter w _ Hlen Hin). split; [simpl; lia | easy].
Qed.

Lemma run_consistent (es : list event) (s : state) :
  consistent s -> consistent (run s es).
Proof.
  revert s. induction es as [| e es IH]; intros s Hs; simpl;
    [exact Hs |].
  apply IH. now apply step_consistent.
Qed.

End CoordinatorProperties.

(** C9. Whatever protocol events a coordinator has gone through, at
    most one worker is blocked inside [WaitForEvaluation]; and while
    an evaluation is outstanding, a further [WaitForEvaluation] is
    answered at once with [CoordinatorBusy] and leaves the coordinator
    as it was, so that the caller is neither blocked nor queued. *)
Theorem coordinator_one_evaluation_in_flight
    (es : list Coordinator.event) (w : Coordinator.thread) :
  let s := Coordinator.run Coordinator.initial es in
  (List.length (Coordinator.blocked s) <= 1)%nat
  /\ (Coordinator.pending s = true ->
      Coordinator.step s (Coordinator.WaitForEvaluation w)
      = (s, [(w, Coordinator.CoordinatorBusy)])).
Proof.
  intros s. split.
  - apply (CoordinatorProperties.run_consistent es Coordinator.initial).
    split; [simpl; lia | reflexivity].
  - intros Hp. simpl. now rewrite Hp.
Qed.

(** ** The promotion table of the specification *)

Lemma Promote_examples :
  SpecModel.Promote ELEMENT_TYPE_I4 ELEMENT_TYPE_I8 = Some ELEMENT_TYPE_I8
  /\ SpecModel.Promote ELEMENT_TYPE_U4 ELEMENT_TYPE_I8 = Some ELEMENT_TYPE_I8
  /\ SpecModel.Promote ELEMENT_TYPE_U4 ELEMENT_TYPE_U8 = Some ELEMENT_TYPE_U8
  /\ SpecModel.Promote ELEMENT_TYPE_I4 ELEMENT_TYPE_U8 = None.
Proof. now repeat split. Qed.

Lemma Promote_symmetric (a b : CorElementType) :
  SpecModel.Promote a b = SpecModel.Promote b a.
Proof. destruct a, b; reflexivity. Qed.

(** ** The compile phase on concrete operand kinds *)

Section Worked.
#[local] Existing Instance LP64.
#[local] Existing Instance SpecModel.objects.
#[local] Existing Instance SpecModel.helpers.
Import Examples.

(** C3. Comparing a [uint32] operand with an [int64] operand: the
    binary numerical promotion of the two kinds is [int64], yet
    [Compile] succeeds and binds [NumericalComparisonComputer<uint32_t>],
    the promotion of the first kind with itself. *)
Theorem relational_promotion_uses_first_kind_twice :
  let this := node BinaryCSharpExpression.eq
                ELEMENT_TYPE_U4 (Ok (uint32 1))
                ELEMENT_TYPE_I8 (Ok (int64 4294967297)) in
  BinaryNumericalPromotion (kind1 this) (kind2 this) []
  = (Some ELEMENT_TYPE_I8, [])
  /\ BinaryNumericalPromotion (kind1 this) (kind1 this) []
     = (Some ELEMENT_TYPE_U4, [])
  /\ compile_status this = S_OK
  /\ computer_ (compiled this)
     = Some (ptr_NumericalComparisonComputer uint32_t)
  /\ computer_ (compiled this)
     <> Some (ptr_NumericalComparisonComputer int64_t).
Proof.
  cbv zeta. repeat split; try reflexivity. discriminate.
Qed.

(** C5. The reference comparison of two objects at different
    addresses: [eq] yields [false], and [ne] yields [false] as well,
    the same boolean instead of its negation. *)
Theorem reference_ne_not_inverted :
  let a := SpecModel.Reference 4096 in
  let b := SpecModel.Reference 8192 in
  GetAddress a <> GetAddress b
  /\ ConditionalObjectComputer BinaryCSharpExpression.eq a b
     = (S_OK, Some (boolean false))
  /\ ConditionalObjectComputer BinaryCSharpExpression.ne a b
     = (S_OK, Some (boolean false))
  /\ computer_ (compiled (node BinaryCSharpExpression.ne
                            ELEMENT_TYPE_CLASS (Ok a)
                            ELEMENT_TYPE_CLASS (Ok b)))
     = Some ptr_ConditionalObjectComputer
  /\ fst (Evaluate (compiled (node BinaryCSharpExpression.ne
                                ELEMENT_TYPE_CLASS (Ok a)
                                ELEMENT_TYPE_CLASS (Ok b)))
                   Counting.fresh)
     = Some (S_OK, Some (boolean false)).
Proof.
  cbv zeta. repeat split; try reflexivity. discriminate.
Qed.

(** C6. A shift whose left operand is a [double] and whose right
    operand is an [int]: the left kind is not integral, yet [Compile]
    returns 0, which is [S_OK] and not a failing status, after
    writing [kTypeMismatch]; no computer is bound. *)
Theorem shift_of_non_integral_left_reports_success :
  let this := node BinaryCSharpExpression.shl
                ELEMENT_TYPE_R8 (Ok (float64 one))
                ELEMENT_TYPE_I4 (Ok (int32 1)) in
  IsIntegralType (kind1 this) = false
  /\ compile_status this = S_OK
  /\ FAILED (compile_status this) = false
  /\ snd (Compile this []) = [kTypeMismatch]
  /\ computer_ (compiled this) = None.
Proof.
  cbv zeta. repeat split; reflexivity.
Qed.

(** C2. [div] over two [long] operands holding the minimum of
    [int64_t] and -1.  The guard of [int64_t] compares the dividend
    with [LONG_MIN]; on the LLP64 build that is -2^31, the guard does
    not fire, and [Evaluate] answers [S_OK] after performing the
    division instead of [E_INVALIDARG]; there it rejects -2^31 over -1
    instead, which overflows nothing at 64 bits.  On LP64 the minimum
    over -1 is rejected. *)
Theorem int64_overflow_guard_reads_LONG_MIN :
  let this := compiled (node BinaryCSharpExpression.div
                          ELEMENT_TYPE_I8 (Ok (int64 (min_value int64_t)))
                          ELEMENT_TYPE_I8 (Ok (int64 (-1)))) in
  let that := compiled (node BinaryCSharpExpression.div
                          ELEMENT_TYPE_I8 (Ok (int64 (-2147483648)))
                          ELEMENT_TYPE_I8 (Ok (int64 (-1)))) in
  computer_ this = Some (ptr_ArithmeticComputer int64_t)
  /\ div_rejected int64_t (min_value int64_t) (-1) = true
  /\ IsDivisionOverflow (DM := LLP64) int64_t (min_value int64_t) (-1) = false
  /\ (exists o,
        Evaluate (DM := LLP64) this Counting.fresh
        = (Some (S_OK, Some o), (both_once, [])))
  /\ Evaluate (DM := LLP64) that Counting.fresh
     = (Some (E_INVALIDARG, None), (both_once, []))
  /\ Evaluate (DM := LP64) this Counting.fresh
     = (Some (E_INVALIDARG, None), (both_once, [])).
Proof.
  cbv zeta.
  split; [reflexivity |]. split; [reflexivity |]. split; [reflexivity |].
  split; [eexists; reflexivity |]. split; reflexivity.
Qed.

(** *** Worked instances *)

(** [false && x] on counting operands: [false], right counter zero. *)
Lemma short_circuit_witness :
  Evaluate (compiled (node BinaryCSharpExpression.conditional_and
                        ELEMENT_TYPE_BOOLEAN (Ok (boolean false))
                        ELEMENT_TYPE_BOOLEAN (Ok (boolean true))))
           Counting.fresh
  = (Some (S_OK, Some (boolean false)), (left_only, [])).
Proof.
  exact (proj1 (short_circuit_and_operand_order
                  (compiled (node BinaryCSharpExpression.conditional_and
                               ELEMENT_TYPE_BOOLEAN (Ok (boolean false))
                               ELEMENT_TYPE_BOOLEAN (Ok (boolean true))))
                  Counting.fresh (left_only, []) (boolean false) eq_refl)
               eq_refl eq_refl).
Defined.

(** An [add] whose left operand cannot be evaluated: [Evaluate]
    returns the failure of the left operand, and the right operand
    is never evaluated although the operator does not short-circuit. *)
Lemma right_operand_skipped_when_left_fails :
  let this := compiled (node BinaryCSharpExpression.add
                          ELEMENT_TYPE_I4 (Fail E_FAIL)
                          ELEMENT_TYPE_I4 (Ok (int32 1))) in
  type_ this = BinaryCSharpExpression.add
  /\ Evaluate this Counting.fresh
     = (Some (E_FAIL, None), (left_only, [kFailedToEvalFirstSubExpr]))
  /\ right_evaluated this = false.
Proof.
  cbv zeta. repeat split; reflexivity.
Qed.

(** On LP64: [5 / 0] and [INT_MIN / -1] on [int32], [1.0 / 0.0] on
    [double], and the bit pattern of [INT_MIN / -1] read as [uint32]. *)
Lemma div_mod_examples :
  Evaluate (compiled (node BinaryCSharpExpression.div
                        ELEMENT_TYPE_I4 (Ok (int32 5))
                        ELEMENT_TYPE_I4 (Ok (int32 0))))
           Counting.fresh
  = (Some (E_INVALIDARG, None), (both_once, []))
  /\ Evaluate (compiled (node BinaryCSharpExpression.mod_
                           ELEMENT_TYPE_I4 (Ok (int32 (-2147483648)))
                           ELEMENT_TYPE_I4 (Ok (int32 (-1)))))
              Counting.fresh
     = (Some (E_INVALIDARG, None), (both_once, []))
  /\ Evaluate (compiled (node BinaryCSharpExpression.div
                           ELEMENT_TYPE_R8 (Ok (float64 one))
                           ELEMENT_TYPE_R8 (Ok (float64 zero))))
              Counting.fresh
     = (Some (S_OK, Some (float64 infinity)), (both_once, []))
  /\ Evaluate (compiled (node BinaryCSharpExpression.div
                           ELEMENT_TYPE_U4 (Ok (uint32 2147483648))
                           ELEMENT_TYPE_U4 (Ok (uint32 4294967295))))
              Counting.fresh
     = (Some (S_OK, Some (uint32 0)), (both_once, [])).
Proof.
  split; [| split; [| split]].
  - exact (proj1 (div_mod_rejects_exactly_zero_and_overflow
                    (compiled (node BinaryCSharpExpression.div
                                 ELEMENT_TYPE_I4 (Ok (int32 5))
                                 ELEMENT_TYPE_I4 (Ok (int32 0))))
                    int32_t Counting.fresh (left_only, []) (both_once, [])
                    (int32 5) (int32 0) 5 0
                    (fun _ => eq_refl)
                    eq_refl eq_refl eq_refl eq_refl eq_refl eq_refl)).
  - exact (proj1 (div_mod_rejects_exactly_zero_and_overflow
                    (compiled (node BinaryCSharpExpression.mod_
                                 ELEMENT_TYPE_I4 (Ok (int32 (-2147483648)))
                                 ELEMENT_TYPE_I4 (Ok (int32 (-1)))))
                    int32_t Counting.fresh (left_only, []) (both_once, [])
                    (int32 (-2147483648)) (int32 (-1)) (-2147483648) (-1)
                    (fun _ => eq_refl)
                    eq_refl eq_refl eq_refl eq_refl eq_refl eq_refl)).
  - exact (proj1 (div_mod_rejects_exactly_zero_and_overflow
                    (compiled (node BinaryCSharpExpression.div
                                 ELEMENT_TYPE_R8 (Ok (float64 one))
                                 ELEMENT_TYPE_R8 (Ok (float64 zero))))
                    double_t Counting.fresh (left_only, []) (both_once, [])
                    (float64 one) (float64 zero) one zero
                    (fun _ => eq_refl)
                    eq_refl eq_refl eq_refl eq_refl eq_refl eq_refl)).
  - exact (proj1 (div_mod_rejects_exactly_zero_and_overflow
                    (compiled (node BinaryCSharpExpression.div
                                 ELEMENT_TYPE_U4 (Ok (uint32 2147483648))
                                 ELEMENT_TYPE_U4 (Ok (uint32 4294967295))))
                    uint32_t Counting.fresh (left_only, []) (both_once, [])
                    (uint32 2147483648) (uint32 4294967295)
                    2147483648 4294967295
                    (fun _ => eq_refl)
                    eq_refl eq_refl eq_refl eq_refl eq_refl eq_refl)).
Defined.

(** [1 << 33] over two [int] operands, through [Compile] and
    [Evaluate]: the node is bound to [ShiftComputer<int32_t, 0x1F>]
    and yields 2, as [1 << 1] does; and [1 << 65] on [int64] too. *)
Lemma shift_count_witness :
  computer_ (compiled (node BinaryCSharpExpression.shl
                         ELEMENT_TYPE_I4 (Ok (int32 1))
                         ELEMENT_TYPE_I4 (Ok (int32 33))))
  = Some (ptr_ShiftComputer int32_t 0x1F)
  /\ Evaluate (compiled (node BinaryCSharpExpression.shl
                           ELEMENT_TYPE_I4 (Ok (int32 1))
                           ELEMENT_TYPE_I4 (Ok (int32 33))))
              Counting.fresh
     = (Some (S_OK, Some (int32 2)), (both_once, []))
  /\ ShiftComputer int32_t (shift_mask int32_t) BinaryCSharpExpression.shl
                   (int32 1) (int32 33)
     = (S_OK, Some (int32 2))
  /\ ShiftComputer int32_t (shift_mask int32_t) BinaryCSharpExpression.shl
                   (int32 1) (int32 1)
     = ShiftComputer int32_t (shift_mask int32_t) BinaryCSharpExpression.shl
                     (int32 1) (int32 33)
  /\ ShiftComputer int64_t (shift_mask int64_t) BinaryCSharpExpression.shl
                   (int64 1) (int32 65)
     = (S_OK, Some (int64 2)).
Proof.
  pose (H32 := shift_count_masked (CH := SpecModel.helpers)
                 (World := Counting.counters)
                 int32_t BinaryCSharpExpression.shl
                 (int32 1) (int32 33) 1 33 eq_refl eq_refl eq_refl).
  pose (H64 := shift_count_masked (CH := SpecModel.helpers)
                 (World := Counting.counters)
                 int64_t BinaryCSharpExpression.shl
                 (int64 1) (int32 65) 1 65 eq_refl eq_refl eq_refl).
  split.
  { exact (f_equal (fun r => computer_ (snd (fst r)))
             (proj1 H32
                (node BinaryCSharpExpression.shl
                   ELEMENT_TYPE_I4 (Ok (int32 1))
                   ELEMENT_TYPE_I4 (Ok (int32 33)))
                [] "System.Int32"%string int32_t
                eq_refl (or_intror eq_refl) eq_refl eq_refl)). }
  split; [reflexivity |].
  split; [exact (proj1 (proj2 (proj2 (proj2 H32)))) |].
  split; [| exact (proj1 (proj2 (proj2 (proj2 H64))))].
  exact (proj2 (proj2 (proj2 (proj2 (proj2 (proj2 H32))))) (int32 1) 1
               eq_refl eq_refl).
Defined.

(** ["a" < "b"] on two string operands is not supported. *)
Lemma ordering_witness :
  let this := node BinaryCSharpExpression.lt
                ELEMENT_TYPE_STRING (Ok (SpecModel.String_ 4096 "a"))
                ELEMENT_TYPE_STRING (Ok (SpecModel.String_ 8192 "b")) in
  exists this',
    Compile this [] = (E_NOTIMPL, this', [kExpressionNotSupported])
    /\ computer_ this' = None.
Proof.
  exact (proj1 (proj2 (ordering_needs_numerical_operands
                         (node BinaryCSharpExpression.lt
                            ELEMENT_TYPE_STRING
                            (Ok (SpecModel.String_ 4096 "a"))
                            ELEMENT_TYPE_STRING
                            (Ok (SpecModel.String_ 8192 "b")))
                         [] eq_refl eq_refl))
               S_OK [] S_OK [] eq_refl eq_refl eq_refl eq_refl).
Defined.

(** Two string objects at different addresses with the content
    ["abc"] compare equal. *)
Lemma string_content_witness :
  exists b : bool,
    ConditionalStringComputer BinaryCSharpExpression.eq
      (SpecModel.String_ 4096 "abc") (SpecModel.String_ 8192 "abc")
    = (S_OK, Some (boolean b))
    /\ b = true.
Proof.
  destruct (proj2 (proj2 (string_operands_compared_by_content
                            (OM := SpecModel.objects)
                            BinaryCSharpExpression.eq
                            (SpecModel.String_ 4096 "abc")
                            (SpecModel.String_ 8192 "abc") eq_refl))
                  "abc"%string "abc"%string eq_refl eq_refl)
    as [b [Hb [Heq _]]].
  exists b. split; [exact Hb | exact (proj2 (Heq eq_refl) eq_refl)].
Defined.

(** [2147483647 + 1] on [int32] succeeds and wraps around. *)
Lemma add_overflow_witness :
  exists r : Z,
    ArithmeticComputer int32_t BinaryCSharpExpression.add
      (int32 2147483647) (int32 1)
    = (S_OK, Some (int32 r))
    /\ in_range int32_t r
    /\ r mod 2 ^ 32 = (2147483647 + 1) mod 2 ^ 32.
Proof.
  exact (proj1 (add_sub_mul_always_succeed
                  int32_t BinaryCSharpExpression.add
                  (int32 2147483647) (int32 1) 2147483647 1
                  eq_refl eq_refl eq_refl) eq_refl).
Defined.

End Worked.

(** A second worker asking while the first evaluation is outstanding. *)
Lemma coordinator_busy_witness :
  Coordinator.step
    (Coordinator.run Coordinator.initial [Coordinator.WaitForEvaluation 1%nat])
    (Coordinator.WaitForEvaluation 2%nat)
  = (Coordinator.run Coordinator.initial [Coordinator.WaitForEvaluation 1%nat],
     [(2%nat, Coordinator.CoordinatorBusy)]).
Proof.
  exact (proj2 (coordinator_one_evaluation_in_flight
                  [Coordinator.WaitForEvaluation 1%nat] 2%nat) eq_refl).
Defined.

(** * Further properties of the evaluator *)

Section CompileOutcomes.
Context {OM : ObjectModel} {CH : CompilerHelpers} {World : Type}.

Local Ltac refuse :=
  left; split;
  [ reflexivity
  | first [ left; reflexivity | right; eexists; eassumption ] ].

Local Ltac bind :=
  right; split;
  [ reflexivity
  | eexists; split;
    [ reflexivity | split; [ eauto | reflexivity ] ] ].

Lemma CompileArithmetical_outcome (this : BinaryExpressionEvaluator World)
    (err_stream : ostream) :
  refused this (CompileArithmetical this err_stream)
  \/ bound_as (fun c => exists T, c = ptr_ArithmeticComputer T)
              (CompileArithmetical this err_stream).
Proof.
  unfold refused, bound_as, CompileArithmetical.
  destruct (BinaryNumericalPromotion _ _ _) as [[result |] err']; [| refuse].
  destruct (ConvertCorElementTypeToString result) as [name | hr] eqn:Hname;
    [| refuse].
  destruct result; first [refuse | bind].
Qed.

Lemma CompileBooleanConditional_outcome
    (this : BinaryExpressionEvaluator World) (err_stream : ostream) :
  refused this (CompileBooleanConditional this err_stream)
  \/ bound_as (fun c => c = ptr_ConditionalBooleanComputer)
              (CompileBooleanConditional this err_stream).
Proof.
  unfold refused, bound_as, CompileBooleanConditional.
  destruct (CorElementType_eqb _ _ && CorElementType_eqb _ _);
    first [refuse | bind].
Qed.

Lemma CompileRelational_outcome (this : BinaryExpressionEvaluator World)
    (err_stream : ostream) :
  refused this (CompileRelational this err_stream)
  \/ bound_as (fun c => (exists T, c = ptr_NumericalComparisonComputer T)
                        \/ is_eq_or_ne (type_ this) = true
                           /\ (c = ptr_ConditionalBooleanComputer
                               \/ c = ptr_ConditionalStringComputer
                               \/ c = ptr_ConditionalObjectComputer))
              (CompileRelational this err_stream).
Proof.
  unfold refused, bound_as, CompileRelational. cbv zeta.
  destruct (IsNumericalType _ && IsNumericalType _).
  - destruct (BinaryNumericalPromotion _ _ _) as [[result |] err']; [| refuse].
    destruct result; first [refuse | bind].
  - change (type_ (set_result_type_name _ _)) with (type_ this).
    destruct (type_ this) eqn:Hop; try refuse.
    all: destruct (CorElementType_eqb _ ELEMENT_TYPE_BOOLEAN
                   && CorElementType_eqb _ ELEMENT_TYPE_BOOLEAN) eqn:Hbool;
      [ unfold CompileBooleanConditional;
        change (arg1_ (set_result_type_name _ _)) with (arg1_ this);
        change (arg2_ (set_result_type_name _ _)) with (arg2_ this);
        rewrite Hbool; bind
      | destruct (CorElementType_eqb _ ELEMENT_TYPE_STRING
                  && CorElementType_eqb _ ELEMENT_TYPE_STRING);
        [ bind
        | destruct (negb (IsNumericalType _) && negb (IsNumericalType _));
          first [refuse | bind] ] ].
Qed.

Lemma CompileLogical_outcome (this : BinaryExpressionEvaluator World)
    (err_stream : ostream) :
  refused this (CompileLogical this err_stream)
  \/ bound_as (fun c => (exists T, c = ptr_BitwiseComputer T)
                        \/ c = ptr_ConditionalBooleanComputer)
              (CompileLogical this err_stream).
Proof.
  unfold CompileLogical. cbv zeta.
  destruct (IsIntegralType _ && IsIntegralType _).
  - unfold refused, bound_as.
    destruct (BinaryNumericalPromotion _ _ _) as [[result |] err']; [| refuse].
    destruct (ConvertCorElementTypeToString result) as [name | hr] eqn:Hname;
      [| refuse].
    destruct result; first [refuse | bind].
  - destruct (CompileBooleanConditional_outcome this err_stream) as [H | H];
      [now left | right].
    destruct H as [Hs [c [Hc [HP Hk]]]].
    split; [exact Hs |]. exists c. auto.
Qed.

(** The one exit of [CompileShift] that is neither of the two: the
    last case of its switch, which answers 0. *)
Lemma CompileShift_outcome (this : BinaryExpressionEvaluator World)
    (err_stream : ostream) :
  refused this (CompileShift this err_stream)
  \/ bound_as (fun c => exists T Bitmask, c = ptr_ShiftComputer T Bitmask)
              (CompileShift this err_stream)
  \/ (computer_ (snd (fst (CompileShift this err_stream))) = computer_ this
      /\ fst (fst (CompileShift this err_stream)) = S_OK
      /\ snd (CompileShift this err_stream) = err_stream << kTypeMismatch).
Proof.
  unfold refused, bound_as, CompileShift. cbv zeta.
  destruct (negb (IsIntegralType _) && negb (IsIntegralType _)); [refuse |].
  destruct (negb (IsNumericallyPromotedToInt _) && negb _); [refuse |].
  destruct (ConvertCorElementTypeToString _) as [name | hr] eqn:Hname;
    [| refuse].
  destruct (if IsNumericallyPromotedToInt _ then _ else _);
    first [ right; left; split;
            [ reflexivity
            | eexists; split;
              [ reflexivity | split; [ eauto | reflexivity ] ] ]
          | right; right; repeat split ].
Qed.

End CompileOutcomes.

Section ComputerResults.
Context {DM : DataModel} {OM : ObjectModel}.

Local Ltac extraction_fails :=
  right; right; eexists; split;
  [ reflexivity
  | unfold extraction_failed;
    first [ left; eexists; left; eassumption
          | left; eexists; right; eassumption
          | right; left; eassumption
          | right; right; eassumption ] ].

Local Ltac stores := left; eexists; reflexivity.

Lemma invoke_cases
    (c : Computer) (type_ : BinaryCSharpExpression.Type_)
    (arg1 arg2 : DbgObject) :
  allowed c type_ = true ->
  (exists v : carrier (produces c),
      invoke c type_ arg1 arg2 = (S_OK, Some (DbgPrimitive (produces c) v)))
  \/ (invoke c type_ arg1 arg2 = (E_INVALIDARG, None)
      /\ is_div_or_mod type_ = true
      /\ exists T, c = ptr_ArithmeticComputer T)
  \/ (exists hr : HRESULT,
         invoke c type_ arg1 arg2 = (hr, None)
         /\ extraction_failed arg1 arg2 hr).
Proof.
  intros Hok. destruct c as [T | T | T Bitmask | | | | T]; simpl invoke.
  - unfold ArithmeticComputer.
    destruct (ExtractPrimitiveValue T arg1) as [value1 | hr1] eqn:H1;
      [| extraction_fails].
    destruct (ExtractPrimitiveValue T arg2) as [value2 | hr2] eqn:H2;
      [| extraction_fails].
    destruct type_; try discriminate Hok; try stores;
      destruct (IsDivisionByZero T value2);
      try (right; left; split; [reflexivity | split; [reflexivity | eauto]]);
      destruct (IsDivisionOverflow T value1 value2);
      try (right; left; split; [reflexivity | split; [reflexivity | eauto]]);
      stores.
  - unfold BitwiseComputer.
    destruct (ExtractPrimitiveValue T arg1) as [value1 | hr1] eqn:H1;
      [| extraction_fails].
    destruct (ExtractPrimitiveValue T arg2) as [value2 | hr2] eqn:H2;
      [| extraction_fails].
    destruct type_; try discriminate Hok; stores.
  - unfold ShiftComputer.
    destruct (ExtractPrimitiveValue T arg1) as [value1 | hr1] eqn:H1;
      [| extraction_fails].
    destruct (ExtractPrimitiveValue int32_t arg2) as [value2 | hr2] eqn:H2;
      [| extraction_fails].
    destruct type_; try discriminate Hok; stores.
  - unfold ConditionalObjectComputer.
    destruct type_; try discriminate Hok; stores.
  - unfold ConditionalStringComputer.
    destruct (GetString arg1) as [s1 | hr1] eqn:H1; [| extraction_fails].
    destruct (GetString arg2) as [s2 | hr2] eqn:H2; [| extraction_fails].
    destruct type_; try discriminate Hok; stores.
  - unfold ConditionalBooleanComputer.
    destruct (ExtractPrimitiveValue bool_t arg1) as [b1 | hr1] eqn:H1;
      [| extraction_fails].
    destruct (ExtractPrimitiveValue bool_t arg2) as [b2 | hr2] eqn:H2;
      [| extraction_fails].
    destruct type_; try discriminate Hok; stores.
  - unfold NumericalComparisonComputer.
    destruct (ExtractPrimitiveValue T arg1) as [value1 | hr1] eqn:H1;
      [| extraction_fails].
    destruct (ExtractPrimitiveValue T arg2) as [value2 | hr2] eqn:H2;
      [| extraction_fails].
    destruct type_; try discriminate Hok; stores.
Qed.

(** X1. A computer called for an operator it can be bound to either
    returns [S_OK] with a primitive of the type it produces, or
    returns the status of a failed extraction, or, for [div] and [mod]
    only, [E_INVALIDARG]; in the last two cases nothing is stored.
    The [E_NOTIMPL] of the default cases is never its own answer. *)
Theorem computer_answers
    (c : Computer) (type_ : BinaryCSharpExpression.Type_)
    (arg1 arg2 : DbgObject) :
  allowed c type_ = true ->
  (exists v : carrier (produces c),
      invoke c type_ arg1 arg2 = (S_OK, Some (DbgPrimitive (produces c) v)))
  \/ (invoke c type_ arg1 arg2 = (E_INVALIDARG, None)
      /\ is_div_or_mod type_ = true
      /\ exists T, c = ptr_ArithmeticComputer T)
  \/ (exists hr : HRESULT,
         invoke c type_ arg1 arg2 = (hr, None)
         /\ extraction_failed arg1 arg2 hr).
Proof. exact (invoke_cases c type_ arg1 arg2). Qed.

(** X2. Every computer except the reference comparison answers [eq]
    and [ne] consistently: either both store a boolean and the one of
    [ne] is the negation of the one of [eq], or both return the same
    status and store nothing. *)
Theorem ne_negates_eq (c : Computer) (arg1 arg2 : DbgObject) :
  c <> ptr_ConditionalObjectComputer ->
  (exists b : bool,
      invoke c BinaryCSharpExpression.eq arg1 arg2
      = (S_OK, Some (DbgPrimitive bool_t b))
      /\ invoke c BinaryCSharpExpression.ne arg1 arg2
         = (S_OK, Some (DbgPrimitive bool_t (negb b))))
  \/ (exists hr : HRESULT,
         invoke c BinaryCSharpExpression.eq arg1 arg2 = (hr, None)
         /\ invoke c BinaryCSharpExpression.ne arg1 arg2 = (hr, None)).
Proof.
  intros Hc. destruct c as [T | T | T Bitmask | | | | T]; simpl invoke;
    try congruence.
  - unfold ArithmeticComputer.
    destruct (ExtractPrimitiveValue T arg1); [| right; eauto].
    destruct (ExtractPrimitiveValue T arg2); right; eauto.
  - unfold BitwiseComputer.
    destruct (ExtractPrimitiveValue T arg1); [| right; eauto].
    destruct (ExtractPrimitiveValue T arg2); right; eauto.
  - unfold ShiftComputer.
    destruct (ExtractPrimitiveValue T arg1); [| right; eauto].
    destruct (ExtractPrimitiveValue int32_t arg2); right; eauto.
  - unfold ConditionalStringComputer.
    destruct (GetString arg1); [| right; eauto].
    destruct (GetString arg2); [left | right]; eauto.
  - unfold ConditionalBooleanComputer.
    destruct (ExtractPrimitiveValue bool_t arg1) as [b1 |]; [| right; eauto].
    destruct (ExtractPrimitiveValue bool_t arg2) as [b2 |]; [left | right; eauto].
    exists (Bool.eqb b1 b2). split; [reflexivity |].
    now destruct b1, b2.
  - unfold NumericalComparisonComputer.
    destruct (ExtractPrimitiveValue T arg1); [| right; eauto].
    destruct (ExtractPrimitiveValue T arg2); [left | right]; eauto.
Qed.

(** X3. On an integer kind the six comparisons of
    [NumericalComparisonComputer] are those of a total order on the
    extracted values: [eq], [lt] and [gt] hold exactly for equal,
    smaller and greater, and [ne], [ge] and [le] are their negations. *)
Theorem integer_comparisons_total_order
    (Ti : int_type) (arg1 arg2 : DbgObject) (a b : Z) :
  ExtractPrimitiveValue Ti arg1 = Ok a ->
  ExtractPrimitiveValue Ti arg2 = Ok b ->
  exists beq blt bgt : bool,
    NumericalComparisonComputer Ti BinaryCSharpExpression.eq arg1 arg2
    = (S_OK, Some (DbgPrimitive bool_t beq))
    /\ NumericalComparisonComputer Ti BinaryCSharpExpression.ne arg1 arg2
       = (S_OK, Some (DbgPrimitive bool_t (negb beq)))
    /\ NumericalComparisonComputer Ti BinaryCSharpExpression.lt arg1 arg2
       = (S_OK, Some (DbgPrimitive bool_t blt))
    /\ NumericalComparisonComputer Ti BinaryCSharpExpression.ge arg1 arg2
       = (S_OK, Some (DbgPrimitive bool_t (negb blt)))
    /\ NumericalComparisonComputer Ti BinaryCSharpExpression.gt arg1 arg2
       = (S_OK, Some (DbgPrimitive bool_t bgt))
    /\ NumericalComparisonComputer Ti BinaryCSharpExpression.le arg1 arg2
       = (S_OK, Some (DbgPrimitive bool_t (negb bgt)))
    /\ (beq = true <-> a = b)
    /\ (blt = true <-> a < b)
    /\ (bgt = true <-> b < a).
Proof.
  intros H1 H2. exists (a =? b), (a <? b), (b <? a).
  unfold NumericalComparisonComputer. rewrite H1, H2. simpl.
  rewrite <- !Z.leb_antisym.
  repeat (split; [reflexivity |]).
  split; [apply Z.eqb_eq | split; apply Z.ltb_lt].
Qed.

(** X4. On a floating kind, when either extracted value is a NaN,
    [eq], [lt], [le], [gt] and [ge] all answer [false] and [ne]
    answers [true]; so [ge] is not the negation of [lt] there. *)
Theorem comparisons_with_nan
    (Tf : fp_type) (type_ : BinaryCSharpExpression.Type_)
    (arg1 arg2 : DbgObject) (x y : spec_float) :
  is_relational type_ = true ->
  ExtractPrimitiveValue Tf arg1 = Ok x ->
  ExtractPrimitiveValue Tf arg2 = Ok y ->
  x = S754_nan \/ y = S754_nan ->
  NumericalComparisonComputer Tf type_ arg1 arg2
  = (S_OK,
     Some (DbgPrimitive bool_t
             match type_ with
             | BinaryCSharpExpression.ne => true
             | _ => false
             end)).
Proof.
  intros Hop H1 H2 Hnan. unfold NumericalComparisonComputer.
  rewrite H1, H2.
  destruct Hnan as [Hx | Hy]; subst;
    destruct type_; try discriminate Hop; simpl; try reflexivity;
    match goal with
    | z : spec_float |- _ => destruct z; reflexivity
    end.
Qed.

(** ** Ranges of quotients, remainders and bitwise results *)

Lemma quot_rem_facts (a b : Z) :
  b <> 0 ->
  a = b * Z.quot a b + Z.rem a b
  /\ Z.abs (Z.rem a b) < Z.abs b
  /\ 0 <= Z.rem a b * a.
Proof.
  intros Hb. split; [apply Z.quot_rem' | split].
  - now apply Z.rem_bound_abs.
  - now apply Z.rem_sign_mul.
Qed.

Lemma signed_quot_rem_bounds (a b M : Z) :
  0 < M -> - M <= a <= M - 1 -> - M <= b <= M - 1 -> b <> 0 ->
  ~ (a = - M /\ b = -1) ->
  - M <= Z.quot a b <= M - 1 /\ - M <= Z.rem a b <= M - 1.
Proof.
  intros HM Ha Hb Hb0 Hov.
  destruct (quot_rem_facts a b Hb0) as [Hqr [Hr Hs]].
  set (q := Z.quot a b) in *. set (r := Z.rem a b) in *.
  split; [| lia].
  assert (b = -1 \/ b = 1 \/ b <= -2 \/ 2 <= b) as [Hc | [Hc | [Hc | Hc]]]
    by lia.
  - subst b. assert (r = 0) by lia. lia.
  - subst b. assert (r = 0) by lia. lia.
  - nia.
  - nia.
Qed.

Lemma unsigned_quot_rem_bounds (a b M : Z) :
  0 <= a <= M -> 0 <= b <= M -> b <> 0 ->
  0 <= Z.quot a b <= M /\ 0 <= Z.rem a b <= M.
Proof.
  intros Ha Hb Hb0.
  destruct (quot_rem_facts a b Hb0) as [Hqr [Hr Hs]].
  pose proof (Z.rem_bound_pos a b ltac:(lia) ltac:(lia)).
  pose proof (Z.quot_pos a b ltac:(lia) ltac:(lia)).
  set (q := Z.quot a b) in *. set (r := Z.rem a b) in *.
  split; [| lia]. nia.
Qed.

Lemma accepted_quot_rem_in_range (Ti : int_type) (a b : Z) :
  in_range Ti a -> in_range Ti b -> div_rejected Ti a b = false ->
  b <> 0 /\ in_range Ti (Z.quot a b) /\ in_range Ti (Z.rem a b).
Proof.
  unfold in_range, min_value, max_value, div_rejected.
  intros Ha Hb Hrej.
  apply orb_false_iff in Hrej as [Hz Hov].
  apply Z.eqb_neq in Hz. split; [exact Hz |].
  destruct (is_unsigned Ti) eqn:Hu.
  - apply unsigned_quot_rem_bounds; assumption.
  - apply signed_quot_rem_bounds; try assumption.
    + destruct Ti; try discriminate Hu; reflexivity.
    + intros [Hmin Hm1]. subst a b. simpl in Hov.
      unfold min_value in Hov. rewrite Hu, Z.eqb_refl in Hov. discriminate.
Qed.

(** X5. [div] and [mod] on an integer kind, where [long] has 64 bits
    or the kind is not [int64_t], for operands in the range of the
    kind that pass the two guards of the code: the quotient and the
    remainder are themselves in range, so they are stored as they are,
    without wrap-around; they satisfy [a = b * q + r] with
    [|r| < |b|], and the remainder has the sign of the dividend. *)
Theorem accepted_division_is_exact
    (Ti : int_type) (arg1 arg2 : DbgObject) (a b : Z) :
  long_covers Ti ->
  in_range Ti a -> in_range Ti b ->
  ExtractPrimitiveValue Ti arg1 = Ok a ->
  ExtractPrimitiveValue Ti arg2 = Ok b ->
  IsDivisionByZero Ti b = false ->
  IsDivisionOverflow Ti a b = false ->
  ArithmeticComputer Ti BinaryCSharpExpression.div arg1 arg2
  = (S_OK, Some (DbgPrimitive Ti (Z.quot a b)))
  /\ ArithmeticComputer Ti BinaryCSharpExpression.mod_ arg1 arg2
     = (S_OK, Some (DbgPrimitive Ti (Z.rem a b)))
  /\ in_range Ti (Z.quot a b) /\ in_range Ti (Z.rem a b)
  /\ a = b * Z.quot a b + Z.rem a b
  /\ Z.abs (Z.rem a b) < Z.abs b
  /\ 0 <= Z.rem a b * a.
Proof.
  intros Hlong Ha Hb H1 H2 Hzero Hover.
  assert (div_rejected Ti a b = false) as Hok.
  { rewrite <- (guards_agree Ti a b Hlong), Hzero, Hover. reflexivity. }
  destruct (accepted_quot_rem_in_range Ti a b Ha Hb Hok) as [Hb0 [Hq Hr]].
  rewrite (ArithmeticComputer_guards Ti BinaryCSharpExpression.div
             arg1 arg2 a b eq_refl H1 H2).
  rewrite (ArithmeticComputer_guards Ti BinaryCSharpExpression.mod_
             arg1 arg2 a b eq_refl H1 H2).
  rewrite Hzero, Hover. simpl arith_div. simpl ComputeModulo. simpl orb.
  cbv iota.
  rewrite (wrap_small Ti _ Hq), (wrap_small Ti _ Hr).
  repeat (split; [first [reflexivity | assumption] |]).
  apply quot_rem_facts. exact Hb0.
Qed.

Lemma signed_range_shiftr (k x : Z) :
  0 <= k ->
  (- 2 ^ k <= x <= 2 ^ k - 1 <-> Z.shiftr x k = 0 \/ Z.shiftr x k = -1).
Proof.
  intros Hk. rewrite Z.shiftr_div_pow2 by exact Hk.
  assert (0 < 2 ^ k) as Hp by (apply Z.pow_pos_nonneg; lia).
  pose proof (Z.div_mod x (2 ^ k) ltac:(lia)) as Hdm.
  pose proof (Z.mod_pos_bound x (2 ^ k) Hp) as Hm.
  split; [intros Hx; nia | intros [Hq | Hq]; rewrite Hq in Hdm; lia].
Qed.

Lemma unsigned_range_shiftr (k x : Z) :
  0 <= k -> (0 <= x <= 2 ^ k - 1 <-> Z.shiftr x k = 0).
Proof.
  intros Hk. rewrite Z.shiftr_div_pow2 by exact Hk.
  assert (0 < 2 ^ k) as Hp by (apply Z.pow_pos_nonneg; lia).
  pose proof (Z.div_mod x (2 ^ k) ltac:(lia)) as Hdm.
  pose proof (Z.mod_pos_bound x (2 ^ k) Hp) as Hm.
  split; [intros Hx; nia | intros Hq; rewrite Hq in Hdm; lia].
Qed.

Lemma bitwise_in_range (Ti : int_type) (a b : Z) :
  in_range Ti a -> in_range Ti b ->
  in_range Ti (Z.land a b) /\ in_range Ti (Z.lor a b)
  /\ in_range Ti (Z.lxor a b).
Proof.
  unfold in_range, min_value, max_value.
  destruct (is_unsigned Ti) eqn:Hu; intros Ha Hb.
  - assert (0 <= bits Ti) as Hk by (destruct Ti; discriminate).
    apply (unsigned_range_shiftr _ _ Hk) in Ha.
    apply (unsigned_range_shiftr _ _ Hk) in Hb.
    rewrite !(unsigned_range_shiftr _ _ Hk).
    rewrite Z.shiftr_land, Z.shiftr_lor, Z.shiftr_lxor, Ha, Hb.
    repeat split.
  - assert (0 <= bits Ti - 1) as Hk by (destruct Ti; discriminate).
    apply (signed_range_shiftr _ _ Hk) in Ha.
    apply (signed_range_shiftr _ _ Hk) in Hb.
    rewrite !(signed_range_shiftr _ _ Hk).
    rewrite Z.shiftr_land, Z.shiftr_lor, Z.shiftr_lxor.
    destruct Ha as [-> | ->], Hb as [-> | ->]; simpl; auto.
Qed.

(** X6. [BitwiseComputer] on operands in the range of the kind returns
    [S_OK] with a value that is in range as well and whose bits are
    the conjunction, disjunction or exclusive disjunction of the bits
    of the operands. *)
Theorem bitwise_results_in_range
    (Ti : int_type) (type_ : BinaryCSharpExpression.Type_)
    (arg1 arg2 : DbgObject) (a b : Z) :
  is_bitwise type_ = true ->
  in_range Ti a -> in_range Ti b ->
  ExtractPrimitiveValue Ti arg1 = Ok a ->
  ExtractPrimitiveValue Ti arg2 = Ok b ->
  exists r : Z,
    BitwiseComputer Ti type_ arg1 arg2 = (S_OK, Some (DbgPrimitive Ti r))
    /\ in_range Ti r
    /\ forall n : Z, 0 <= n ->
         Z.testbit r n
         = match type_ with
           | BinaryCSharpExpression.bitwise_and =>
               Z.testbit a n && Z.testbit b n
           | BinaryCSharpExpression.bitwise_or =>
               Z.testbit a n || Z.testbit b n
           | _ => xorb (Z.testbit a n) (Z.testbit b n)
           end.
Proof.
  intros Hop Ha Hb H1 H2.
  destruct (bitwise_in_range Ti a b Ha Hb) as [Hand [Hor Hxor]].
  unfold BitwiseComputer. rewrite H1, H2.
  destruct type_; try discriminate Hop; eexists;
    (split; [reflexivity | split; [assumption |]]); intros n Hn.
  - apply Z.land_spec.
  - apply Z.lor_spec.
  - apply Z.lxor_spec.
Qed.

Lemma shiftr_moves_towards_zero (x c : Z) :
  0 <= c ->
  (0 <= x -> 0 <= x / 2 ^ c <= x) /\ (x < 0 -> x <= x / 2 ^ c < 0).
Proof.
  intros Hc.
  assert (0 < 2 ^ c) as Hp by (apply Z.pow_pos_nonneg; lia).
  pose proof (Z.div_mod x (2 ^ c) ltac:(lia)) as Hdm.
  pose proof (Z.mod_pos_bound x (2 ^ c) Hp) as Hm.
  split; intros Hx; nia.
Qed.

Lemma zero_in_range (Ti : int_type) : min_value Ti <= 0 <= max_value Ti.
Proof. destruct Ti; split; discriminate. Qed.

(** X7. [ShiftComputer] with the mask of its kind, on a left operand in
    the range of the kind: the stored value is in range; a count that
    is a multiple of the width leaves the value unchanged; and a right
    shift, [shr_u] no less than [shr_s], keeps the sign, moving a
    non-negative value towards 0 and a negative one towards -1. *)
Theorem shift_results_in_range
    (Ti : int_type) (type_ : BinaryCSharpExpression.Type_)
    (arg1 arg2 : DbgObject) (v count : Z) :
  is_shift type_ = true ->
  in_range Ti v ->
  ExtractPrimitiveValue Ti arg1 = Ok v ->
  ExtractPrimitiveValue int32_t arg2 = Ok count ->
  exists r : Z,
    ShiftComputer Ti (shift_mask Ti) type_ arg1 arg2
    = (S_OK, Some (DbgPrimitive Ti r))
    /\ in_range Ti r
    /\ (count mod bits Ti = 0 -> r = v)
    /\ (type_ <> BinaryCSharpExpression.shl ->
        (0 <= v -> 0 <= r <= v) /\ (v < 0 -> v <= r < 0)).
Proof.
  intros Hop Hv H1 H2.
  pose proof (masked_count_bounds Ti count) as Hm.
  pose proof (zero_in_range Ti) as Hz.
  rewrite (ShiftComputer_shifted Ti _ type_ arg1 arg2 v count Hop
             (proj1 Hm) H1 H2).
  rewrite <- mask_is_modulo.
  set (m := Z.land count (shift_mask Ti)) in *.
  pose proof (shiftr_moves_towards_zero v m (proj1 Hm)) as [Hpos Hneg].
  eexists. split; [reflexivity |].
  unfold in_range in *.
  destruct type_; try discriminate Hop; unfold shifted.
  - split; [apply wrap_in_range |]. split; [| congruence].
    intros ->. rewrite Z.mul_1_r. now apply wrap_small.
  - split; [lia |]. split; [| intros _; split; assumption].
    intros ->. apply Z.div_1_r.
  - split; [lia |]. split; [| intros _; split; assumption].
    intros ->. apply Z.div_1_r.
Qed.

End ComputerResults.

(** X8. The template [IsDivisionOverflow] and the overloads that
    shadow it for [int32_t], [int64_t], [float_t] and [double_t] decide
    alike on every type, so the answer does not hinge on which of them
    overload resolution picks. *)
Theorem division_overflow_template_agrees
    {DM : DataModel} (T : num_type) (value1 value2 : carrier T) :
  IsDivisionOverflow_template T value1 value2
  = IsDivisionOverflow T value1 value2.
Proof.
  destruct T as [[| | |] | [|]]; simpl; try reflexivity;
    destruct (value2 =? -1); simpl;
    now rewrite ?andb_true_r, ?andb_false_r.
Qed.

Section EvaluateProperties.
Context {DM : DataModel} {OM : ObjectModel} {World : Type}.

(** X9. A [conditional_and] or [conditional_or] node bound to the
    boolean computer, over operands that evaluate to booleans [b1] and
    [b2], returns [S_OK] with [b1 && b2], respectively [b1 || b2]:
    short-circuiting never changes the value.  The state is the one
    after the left operand when the left value decides, and the one
    after the right operand otherwise. *)
Theorem conditional_operators_value
    (this : BinaryExpressionEvaluator World) (st st1 st2 : World * ostream)
    (o1 o2 : DbgObject) (b1 b2 : bool) :
  is_conditional (type_ this) = true ->
  computer_ this = Some ptr_ConditionalBooleanComputer ->
  ee_Evaluate (arg1_ this) st = (Ok o1, st1) ->
  ExtractPrimitiveValue bool_t o1 = Ok b1 ->
  ee_Evaluate (arg2_ this) st1 = (Ok o2, st2) ->
  ExtractPrimitiveValue bool_t o2 = Ok b2 ->
  Evaluate this st
  = match type_ this with
    | BinaryCSharpExpression.conditional_and =>
        (Some (S_OK, Some (DbgPrimitive bool_t (b1 && b2))),
         if b1 then st2 else st1)
    | _ =>
        (Some (S_OK, Some (DbgPrimitive bool_t (b1 || b2))),
         if b1 then st1 else st2)
    end.
Proof.
  intros Hop Hc He1 Hx1 He2 Hx2.
  unfold Evaluate, Evaluate_second. rewrite He1, Hx1, He2, Hc.
  destruct (type_ this); try discriminate Hop; destruct b1; simpl;
    try reflexivity;
    unfold ConditionalBooleanComputer; rewrite Hx1, Hx2; reflexivity.
Qed.

(** X10. What [Evaluate] itself adds to the state: when the left
    operand fails, its status is returned with
    [kFailedToEvalFirstSubExpr] appended; otherwise either a
    conditional operator stops after the left operand and the state
    is the one that operand left, or the right operand is evaluated,
    and then its failure is returned with [kFailedToEvalSecondSubExpr]
    appended, or else the state is the one it left: whatever the
    computer answers, no diagnostic is written for it. *)
Theorem Evaluate_diagnostics
    (this : BinaryExpressionEvaluator World) (st : World * ostream) :
  match ee_Evaluate (arg1_ this) st with
  | (Fail hr, (w, err_stream)) =>
      Evaluate this st
      = (Some (hr, None), (w, err_stream << kFailedToEvalFirstSubExpr))
  | (Ok o1, st1) =>
      (is_conditional (type_ this) = true /\ snd (Evaluate this st) = st1)
      \/ match ee_Evaluate (arg2_ this) st1 with
         | (Fail hr, (w, err_stream)) =>
             Evaluate this st
             = (Some (hr, None),
                (w, err_stream << kFailedToEvalSecondSubExpr))
         | (Ok o2, st2) =>
             Evaluate this st
             = (option_map (fun c => invoke c (type_ this) o1 o2)
                           (computer_ this), st2)
         end
  end.
Proof.
  unfold Evaluate.
  destruct (ee_Evaluate (arg1_ this) st) as [[o1 | hr] [w err_stream]];
    [| reflexivity].
  assert (Evaluate_second this o1 (w, err_stream)
          = match ee_Evaluate (arg2_ this) (w, err_stream) with
            | (Fail hr, (w', err_stream')) =>
                (Some (hr, None),
                 (w', err_stream' << kFailedToEvalSecondSubExpr))
            | (Ok o2, st2) =>
                (option_map (fun c => invoke c (type_ this) o1 o2)
                            (computer_ this), st2)
            end) as Hsecond.
  { unfold Evaluate_second.
    destruct (ee_Evaluate (arg2_ this) (w, err_stream)) as [[o2 | hr] [w' e']];
      reflexivity. }
  destruct (type_ this); try (right; rewrite Hsecond;
    destruct (ee_Evaluate (arg2_ this) (w, err_stream)) as [[o2 | hr] [w' e']];
    reflexivity).
  - destruct (ExtractPrimitiveValue bool_t o1) as [[|] | hr];
      [right | left; now split | left; now split].
    simpl. rewrite Hsecond.
    destruct (ee_Evaluate (arg2_ this) (w, err_stream)) as [[o2 | hr] [w' e']];
      reflexivity.
  - destruct (ExtractPrimitiveValue bool_t o1) as [[|] | hr];
      [left; now split | right | left; now split].
    rewrite Hsecond.
    destruct (ee_Evaluate (arg2_ this) (w, err_stream)) as [[o2 | hr] [w' e']];
      reflexivity.
Qed.

End EvaluateProperties.

Section CompileProperties.
Context {DM : DataModel} {OM : ObjectModel} {CH : CompilerHelpers}
        {World : Type}.

Lemma CorElementType_eqb_eq (a b : CorElementType) :
  CorElementType_eqb a b = true <-> a = b.
Proof. split; [destruct a, b; (reflexivity || discriminate) | intros ->; now destruct b]. Qed.

Lemma bound_as_weaken (P Q : Computer -> Prop)
    (r : HRESULT * BinaryExpressionEvaluator World * ostream) :
  (forall c, P c -> Q c) -> bound_as P r -> bound_as Q r.
Proof.
  intros HPQ [Hs [c [Hc [HP Hk]]]]. split; [exact Hs |]. exists c. auto.
Qed.

Local Ltac split_matches :=
  repeat match goal with
         | |- context [match ?x with _ => _ end] => destruct x
         | |- context [if ?x then _ else _] => destruct x
         end.

(** No compile method touches the operator or the operands. *)
Lemma Compile_keeps_operands (this : BinaryExpressionEvaluator World)
    (err_stream : ostream) :
  type_ (snd (fst (Compile this err_stream))) = type_ this
  /\ arg1_ (snd (fst (Compile this err_stream))) = arg1_ this
  /\ arg2_ (snd (fst (Compile this err_stream))) = arg2_ this.
Proof.
  unfold Compile.
  destruct (ee_Compile (arg1_ this) err_stream) as [hr1 err1].
  destruct (FAILED hr1); [now repeat split |].
  destruct (ee_Compile (arg2_ this) err1) as [hr2 err2].
  destruct (FAILED hr2); [now repeat split |].
  destruct (type_ this) eqn:Hop;
    unfold CompileArithmetical, CompileRelational, CompileLogical,
           CompileShift, CompileBooleanConditional; cbv zeta;
    split_matches; simpl; rewrite ?Hop; now repeat split.
Qed.

Lemma Compile_outcome (this : BinaryExpressionEvaluator World)
    (err_stream : ostream) :
  refused this (Compile this err_stream)
  \/ bound_as (fun c => allowed c (type_ this) = true)
              (Compile this err_stream)
  \/ (is_shift (type_ this) = true
      /\ computer_ (snd (fst (Compile this err_stream))) = computer_ this
      /\ fst (fst (Compile this err_stream)) = S_OK).
Proof.
  unfold Compile.
  destruct (ee_Compile (arg1_ this) err_stream) as [hr1 err1].
  destruct (FAILED hr1) eqn:Hf1; [left; split; [reflexivity | now left] |].
  destruct (ee_Compile (arg2_ this) err1) as [hr2 err2].
  destruct (FAILED hr2) eqn:Hf2; [left; split; [reflexivity | now left] |].
  destruct (type_ this) eqn:Hop.
  1-5: destruct (CompileArithmetical_outcome this err2) as [H | H];
    [now left | right; left]; revert H; apply bound_as_weaken;
    intros c [T ->]; reflexivity.
  1-6: destruct (CompileRelational_outcome this err2) as [H | H];
    [now left | right; left]; revert H; apply bound_as_weaken;
    intros c HP; rewrite Hop in HP;
    destruct HP as [[T ->] | [Heq [-> | [-> | ->]]]];
    first [reflexivity | discriminate Heq].
  1-2: destruct (CompileBooleanConditional_outcome this err2) as [H | H];
    [now left | right; left]; revert H; apply bound_as_weaken;
    intros c ->; reflexivity.
  1-3: destruct (CompileLogical_outcome this err2) as [H | H];
    [now left | right; left]; revert H; apply bound_as_weaken;
    intros c [[T ->] | ->]; reflexivity.
  1-3: destruct (CompileShift_outcome this err2) as [H | [H | [H1 [H2 _]]]];
    [ now left
    | right; left; revert H; apply bound_as_weaken;
      intros c [T [m ->]]; reflexivity
    | right; right; now repeat split ].
Qed.

Lemma Compile_newly_bound (this : BinaryExpressionEvaluator World)
    (err_stream : ostream) (c : Computer) :
  computer_ this = None ->
  computer_ (snd (fst (Compile this err_stream))) = Some c ->
  fst (fst (Compile this err_stream)) = S_OK
  /\ allowed c (type_ this) = true
  /\ kind_of (produces c)
     = cor_type (result_type_ (snd (fst (Compile this err_stream)))).
Proof.
  intros Hfresh Hc.
  destruct (Compile_outcome this err_stream)
    as [[H _] | [[Hs [c' [Hc' [Ha Hk]]]] | [_ [H _]]]];
    try congruence.
  assert (c' = c) by congruence. subst c'. auto.
Qed.

(** X11. [Compile] either leaves [computer_] as it was, or returns
    [S_OK] having bound a computer that belongs to the category of the
    node's operator (an arithmetic computer for an arithmetic
    operator, and so on) and whose values have the kind recorded in
    [result_type_]. *)
Theorem Compile_binds_matching_computer
    (this : BinaryExpressionEvaluator World) (err_stream : ostream) :
  computer_ (snd (fst (Compile this err_stream))) = computer_ this
  \/ (fst (fst (Compile this err_stream)) = S_OK
      /\ exists c : Computer,
           computer_ (snd (fst (Compile this err_stream))) = Some c
           /\ allowed c (type_ this) = true
           /\ kind_of (produces c)
              = cor_type (result_type_ (snd (fst (Compile this err_stream))))).
Proof.
  destruct (Compile_outcome this err_stream) as [[H _] | [H | [_ [H _]]]];
    [now left | now right | now left].
Qed.

(** X12. A node that had no computer and got one from [Compile]: every
    object its [Evaluate] stores, from any state, comes with [S_OK]
    and is a primitive whose kind is the static kind in
    [result_type_]. *)
Theorem evaluated_values_have_static_type
    (this : BinaryExpressionEvaluator World) (err_stream : ostream)
    (c : Computer) (st st' : World * ostream) (hr : HRESULT)
    (o : DbgObject) :
  computer_ this = None ->
  computer_ (snd (fst (Compile this err_stream))) = Some c ->
  Evaluate (snd (fst (Compile this err_stream))) st = (Some (hr, Some o), st') ->
  hr = S_OK
  /\ exists (T : prim_type) (v : carrier T),
       o = DbgPrimitive T v
       /\ kind_of T
          = cor_type (result_type_ (snd (fst (Compile this err_stream)))).
Proof.
  intros Hfresh Hc Hev.
  destruct (Compile_newly_bound this err_stream c Hfresh Hc)
    as [_ [Hallowed Hkind]].
  destruct (Compile_keeps_operands this err_stream) as [Htype _].
  set (node := snd (fst (Compile this err_stream))) in *.
  rewrite <- Htype in Hallowed.
  assert (forall arg1 st1,
             Evaluate_second node arg1 st1 = (Some (hr, Some o), st') ->
             hr = S_OK
             /\ exists T v, o = DbgPrimitive T v
                            /\ kind_of T = cor_type (result_type_ node))
    as Hsecond.
  { intros arg1 st1 H. unfold Evaluate_second in H.
    destruct (ee_Evaluate (arg2_ node) st1) as [[arg2 | hr2] [w2 e2]];
      [| inversion H].
    rewrite Hc in H. simpl in H.
    destruct (invoke_cases c (type_ node) arg1 arg2 Hallowed)
      as [[v Hv] | [[Hv _] | [hr' [Hv _]]]];
      rewrite Hv in H; inversion H; subst.
    split; [reflexivity |]. exists (produces c), v. now split. }
  assert (is_conditional (type_ node) = true ->
          kind_of bool_t = cor_type (result_type_ node)) as Hbool.
  { intros Hcond. rewrite <- Hkind.
    destruct c; try reflexivity; simpl in Hallowed;
      destruct (type_ node); discriminate. }
  unfold Evaluate in Hev.
  destruct (ee_Evaluate (arg1_ node) st) as [[o1 | hr1] [w e]];
    [| inversion Hev].
  destruct (type_ node) eqn:Hop; try exact (Hsecond _ _ Hev);
    destruct (ExtractPrimitiveValue bool_t o1) as [[|] |];
    simpl in Hev; try exact (Hsecond _ _ Hev);
    inversion Hev; subst;
    (split; [reflexivity |]); eexists bool_t, _;
    (split; [reflexivity | now apply Hbool]).
Qed.

Lemma Evaluate_defined (this : BinaryExpressionEvaluator World)
    (c : Computer) (st : World * ostream) :
  computer_ this = Some c -> fst (Evaluate this st) <> None.
Proof.
  intros Hc. unfold Evaluate, Evaluate_second.
  destruct (ee_Evaluate (arg1_ this) st) as [[o1 | hr1] [w e]];
    [| discriminate].
  rewrite Hc.
  destruct (type_ this);
    try (destruct (ExtractPrimitiveValue bool_t o1) as [[|] |]; simpl;
         try discriminate);
    destruct (ee_Evaluate (arg2_ this) (w, e)) as [[o2 | hr2] [w2 e2]];
    discriminate.
Qed.

(** X13. For every operator but the shifts, and provided
    [ConvertCorElementTypeToString] fails only with failing statuses:
    a [Compile] that does not return a failing status returns [S_OK]
    and has bound a computer, so that [Evaluate] on the compiled node
    never calls through a null [computer_]. *)
Theorem successful_compile_binds_computer
    (this : BinaryExpressionEvaluator World) (err_stream : ostream) :
  is_shift (type_ this) = false ->
  (forall t hr, ConvertCorElementTypeToString t = Fail hr -> FAILED hr = true) ->
  FAILED (fst (fst (Compile this err_stream))) = false ->
  fst (fst (Compile this err_stream)) = S_OK
  /\ (exists c : Computer,
         computer_ (snd (fst (Compile this err_stream))) = Some c)
  /\ forall st : World * ostream,
       fst (Evaluate (snd (fst (Compile this err_stream))) st) <> None.
Proof.
  intros Hop Hconv Hok.
  destruct (Compile_outcome this err_stream)
    as [[_ [H | [t H]]] | [[Hs [c [Hc _]]] | [H _]]].
  - congruence.
  - apply Hconv in H. congruence.
  - split; [exact Hs |]. split; [now exists c |].
    intros st. now apply (Evaluate_defined _ c).
  - congruence.
Qed.

(** X14. The operators on booleans: for [conditional_and] and
    [conditional_or], and for a bitwise operator whose operands are
    not both integral, [Compile] (once both operands have compiled)
    succeeds exactly when both operands are of kind boolean; it then
    binds the boolean computer with result kind boolean, and
    otherwise returns [E_FAIL] after writing [kTypeMismatch], leaving
    the node untouched. *)
Theorem boolean_operators_need_boolean_operands
    (this : BinaryExpressionEvaluator World)
    (err_stream err1 err2 : ostream) (hr1 hr2 : HRESULT) :
  ee_Compile (arg1_ this) err_stream = (hr1, err1) -> FAILED hr1 = false ->
  ee_Compile (arg2_ this) err1 = (hr2, err2) -> FAILED hr2 = false ->
  is_conditional (type_ this) = true
  \/ (is_bitwise (type_ this) = true
      /\ IsIntegralType (kind1 this) && IsIntegralType (kind2 this) = false) ->
  (kind1 this = ELEMENT_TYPE_BOOLEAN /\ kind2 this = ELEMENT_TYPE_BOOLEAN ->
   Compile this err_stream
   = (S_OK,
      set_result_type (set_computer this ptr_ConditionalBooleanComputer)
        {| cor_type := ELEMENT_TYPE_BOOLEAN; type_name := kBooleanClassName |},
      err2))
  /\ (~ (kind1 this = ELEMENT_TYPE_BOOLEAN /\ kind2 this = ELEMENT_TYPE_BOOLEAN) ->
      Compile this err_stream = (E_FAIL, this, err2 << kTypeMismatch)).
Proof.
  unfold kind1, kind2. intros Hc1 Hf1 Hc2 Hf2 Hop.
  assert (Compile this err_stream = CompileBooleanConditional this err2)
    as ->.
  { unfold Compile. rewrite Hc1, Hf1, Hc2, Hf2.
    destruct Hop as [Hop | [Hop Hint]];
      destruct (type_ this); try discriminate Hop; try reflexivity;
      unfold CompileLogical; cbv zeta; now rewrite Hint. }
  unfold CompileBooleanConditional. split.
  - intros [-> ->]. reflexivity.
  - intros Hnot.
    destruct (CorElementType_eqb _ _ && CorElementType_eqb _ _) eqn:Hb;
      [| reflexivity].
    apply andb_true_iff in Hb as [Hb1 Hb2].
    apply CorElementType_eqb_eq in Hb1, Hb2. tauto.
Qed.

(** X15. [eq] and [ne] on operands that are not both numerical: when
    neither is numerical [CompileRelational] always succeeds, binding
    the boolean computer for two booleans, else the string computer
    for two strings, else the reference comparison; when exactly one
    is numerical it returns [E_FAIL] after writing [kTypeMismatch].
    It never answers [E_NOTIMPL] for these two operators. *)
Theorem equality_of_non_numerical_operands
    (this : BinaryExpressionEvaluator World) (err_stream : ostream) :
  is_eq_or_ne (type_ this) = true ->
  IsNumericalType (kind1 this) && IsNumericalType (kind2 this) = false ->
  (IsNumericalType (kind1 this) = false ->
   IsNumericalType (kind2 this) = false ->
   fst (fst (CompileRelational this err_stream)) = S_OK
   /\ snd (CompileRelational this err_stream) = err_stream
   /\ computer_ (snd (fst (CompileRelational this err_stream)))
      = Some (if CorElementType_eqb (kind1 this) ELEMENT_TYPE_BOOLEAN
                 && CorElementType_eqb (kind2 this) ELEMENT_TYPE_BOOLEAN
              then ptr_ConditionalBooleanComputer
              else if CorElementType_eqb (kind1 this) ELEMENT_TYPE_STRING
                      && CorElementType_eqb (kind2 this) ELEMENT_TYPE_STRING
                   then ptr_ConditionalStringComputer
                   else ptr_ConditionalObjectComputer))
  /\ (IsNumericalType (kind1 this) <> IsNumericalType (kind2 this) ->
      fst (fst (CompileRelational this err_stream)) = E_FAIL
      /\ snd (CompileRelational this err_stream)
         = err_stream << kTypeMismatch
      /\ computer_ (snd (fst (CompileRelational this err_stream)))
         = computer_ this).
Proof.
  unfold kind1, kind2, CompileRelational. intros Hop Hnum. cbv zeta.
  rewrite Hnum.
  change (type_ (set_result_type_name _ _)) with (type_ this).
  unfold CompileBooleanConditional.
  change (arg1_ (set_result_type_name _ _)) with (arg1_ this).
  change (arg2_ (set_result_type_name _ _)) with (arg2_ this).
  set (k1 := cor_type (ee_GetStaticType (arg1_ this))) in *.
  set (k2 := cor_type (ee_GetStaticType (arg2_ this))) in *.
  split.
  - intros Hn1 Hn2. rewrite Hn1, Hn2.
    destruct (type_ this); try discriminate Hop;
      destruct (CorElementType_eqb k1 ELEMENT_TYPE_BOOLEAN
                && CorElementType_eqb k2 ELEMENT_TYPE_BOOLEAN);
      try (now repeat split);
      destruct (CorElementType_eqb k1 ELEMENT_TYPE_STRING
                && CorElementType_eqb k2 ELEMENT_TYPE_STRING);
      now repeat split.
  - intros Hdiff.
    assert (k1 <> k2) as Hk by congruence.
    assert (forall t, CorElementType_eqb k1 t && CorElementType_eqb k2 t
                      = false) as Hsame.
    { intros t. apply andb_false_iff.
      destruct (CorElementType_eqb k1 t) eqn:H1; [right | now left].
      destruct (CorElementType_eqb k2 t) eqn:H2; [| reflexivity].
      apply CorElementType_eqb_eq in H1, H2. congruence. }
    rewrite !Hsame.
    assert (negb (IsNumericalType k1) && negb (IsNumericalType k2) = false)
      as ->.
    { destruct (IsNumericalType k1), (IsNumericalType k2);
        try reflexivity; congruence. }
    destruct (type_ this); try discriminate Hop; now repeat split.
Qed.

End CompileProperties.

Section ShiftCompileProperties.
Context {OM : ObjectModel} {CH : CompilerHelpers} {World : Type}.

(** X16. The operand kinds of a shift: a count whose kind is neither
    [int] nor narrower than [int] makes [CompileShift] return [E_FAIL]
    after writing [kTypeMismatch], whatever the left operand; with an
    acceptable count, a left operand narrower than [int] is shifted as
    an [int]: the node gets [ShiftComputer<int32_t, 0x1f>] and the
    result kind [ELEMENT_TYPE_I4]. *)
Theorem shift_operand_kinds
    (this : BinaryExpressionEvaluator World) (err_stream : ostream) :
  (IsNumericallyPromotedToInt (kind2 this) = false ->
   kind2 this <> ELEMENT_TYPE_I4 ->
   CompileShift this err_stream = (E_FAIL, this, err_stream << kTypeMismatch))
  /\ (forall name : string,
        IsNumericallyPromotedToInt (kind2 this) = true
        \/ kind2 this = ELEMENT_TYPE_I4 ->
        IsIntegralType (kind1 this) || IsIntegralType (kind2 this) = true ->
        IsNumericallyPromotedToInt (kind1 this) = true ->
        ConvertCorElementTypeToString ELEMENT_TYPE_I4 = Ok name ->
        CompileShift this err_stream
        = (S_OK,
           set_computer
             (set_result_type_name
                (set_result_cor_type this ELEMENT_TYPE_I4) name)
             (ptr_ShiftComputer int32_t 0x1f),
           err_stream)).
Proof.
  unfold kind1, kind2, CompileShift. cbv zeta. split.
  - intros Hnarrow Hint. rewrite Hnarrow.
    destruct (CorElementType_eqb _ ELEMENT_TYPE_I4) eqn:Heq;
      [apply CorElementType_eqb_eq in Heq; contradiction |].
    now destruct (negb (IsIntegralType _) && negb (IsIntegralType _)).
  - intros name Hcount Hint Hnarrow Hname.
    assert (negb (IsIntegralType (cor_type (ee_GetStaticType (arg1_ this))))
            && negb (IsIntegralType (cor_type (ee_GetStaticType (arg2_ this))))
            = false) as ->.
    { rewrite <- negb_orb, Hint. reflexivity. }
    assert (negb (IsNumericallyPromotedToInt
                    (cor_type (ee_GetStaticType (arg2_ this))))
            && negb (CorElementType_eqb
                       (cor_type (ee_GetStaticType (arg2_ this)))
                       ELEMENT_TYPE_I4) = false) as ->.
    { destruct Hcount as [-> | ->];
        [reflexivity | apply andb_false_r]. }
    now rewrite Hnarrow, Hname.
Qed.

End ShiftCompileProperties.

(** ** Worked instances of the further properties *)

Section MoreWorked.
#[local] Existing Instance LP64.
#[local] Existing Instance SpecModel.objects.
#[local] Existing Instance SpecModel.helpers.
Import Examples.

(** [7 / 0] on [int32]: one of the three answers, here [E_INVALIDARG]. *)
Lemma computer_answers_witness :
  (exists v : Z,
      ArithmeticComputer int32_t BinaryCSharpExpression.div (int32 7) (int32 0)
      = (S_OK, Some (int32 v)))
  \/ (ArithmeticComputer int32_t BinaryCSharpExpression.div (int32 7) (int32 0)
      = (E_INVALIDARG, None)
      /\ is_div_or_mod BinaryCSharpExpression.div = true
      /\ exists T, ptr_ArithmeticComputer int32_t = ptr_ArithmeticComputer T)
  \/ (exists hr : HRESULT,
         ArithmeticComputer int32_t BinaryCSharpExpression.div
           (int32 7) (int32 0) = (hr, None)
         /\ extraction_failed (int32 7) (int32 0) hr).
Proof.
  exact (computer_answers (OM := SpecModel.objects)
           (ptr_ArithmeticComputer int32_t) BinaryCSharpExpression.div
           (int32 7) (int32 0) eq_refl).
Defined.

(** ["abc" == "abd"] and ["abc" != "abd"] on two strings. *)
Lemma ne_negates_eq_witness :
  (exists b : bool,
      ConditionalStringComputer BinaryCSharpExpression.eq
        (SpecModel.String_ 4096 "abc") (SpecModel.String_ 8192 "abd")
      = (S_OK, Some (boolean b))
      /\ ConditionalStringComputer BinaryCSharpExpression.ne
           (SpecModel.String_ 4096 "abc") (SpecModel.String_ 8192 "abd")
         = (S_OK, Some (boolean (negb b))))
  \/ (exists hr : HRESULT,
         ConditionalStringComputer BinaryCSharpExpression.eq
           (SpecModel.String_ 4096 "abc") (SpecModel.String_ 8192 "abd")
         = (hr, None)
         /\ ConditionalStringComputer BinaryCSharpExpression.ne
              (SpecModel.String_ 4096 "abc") (SpecModel.String_ 8192 "abd")
            = (hr, None)).
Proof.
  apply (ne_negates_eq (OM := SpecModel.objects)
           ptr_ConditionalStringComputer
           (SpecModel.String_ 4096 "abc") (SpecModel.String_ 8192 "abd")).
  discriminate.
Defined.

(** [3] against [5] on [int32]. *)
Lemma integer_comparisons_witness :
  NumericalComparisonComputer int32_t BinaryCSharpExpression.lt
    (int32 3) (int32 5) = (S_OK, Some (boolean true))
  /\ NumericalComparisonComputer int32_t BinaryCSharpExpression.ge
       (int32 3) (int32 5) = (S_OK, Some (boolean false)).
Proof.
  destruct (integer_comparisons_total_order (OM := SpecModel.objects)
              int32_t (int32 3) (int32 5) 3 5 eq_refl eq_refl)
    as [beq [blt [bgt [_ [_ [Hlt [Hge [_ [_ [_ [Hb _]]]]]]]]]]].
  assert (blt = true) as Hblt by (apply Hb; reflexivity).
  rewrite Hblt in Hlt, Hge. split; [exact Hlt | exact Hge].
Defined.

(** [NaN < 1.0] on [double] is false. *)
Lemma comparisons_with_nan_witness :
  NumericalComparisonComputer double_t BinaryCSharpExpression.lt
    (float64 S754_nan) (float64 one)
  = (S_OK, Some (boolean false)).
Proof.
  exact (comparisons_with_nan (OM := SpecModel.objects)
           double_t BinaryCSharpExpression.lt
           (float64 S754_nan) (float64 one) S754_nan one
           eq_refl eq_refl eq_refl (or_introl eq_refl)).
Defined.

Lemma in_range_int32_by_test (z : Z) :
  (-2147483648 <=? z) && (z <=? 2147483647) = true -> in_range int32_t z.
Proof.
  intros H. apply andb_true_iff in H as [Hlo Hhi].
  split; [apply Z.leb_le, Hlo | apply Z.leb_le, Hhi].
Defined.

Lemma in_range_int64_by_test (z : Z) :
  (-9223372036854775808 <=? z) && (z <=? 9223372036854775807) = true ->
  in_range int64_t z.
Proof.
  intros H. apply andb_true_iff in H as [Hlo Hhi].
  split; [apply Z.leb_le, Hlo | apply Z.leb_le, Hhi].
Defined.

(** [-7 / 2 = -3] and [-7 % 2 = -1] on [int32], and [-7 / 2 = -3] on
    [int64] where [long] has 64 bits. *)
Lemma accepted_division_witness :
  ArithmeticComputer int32_t BinaryCSharpExpression.div (int32 (-7)) (int32 2)
  = (S_OK, Some (int32 (-3)))
  /\ ArithmeticComputer int32_t BinaryCSharpExpression.mod_
       (int32 (-7)) (int32 2)
     = (S_OK, Some (int32 (-1)))
  /\ ArithmeticComputer (DM := LP64) int64_t BinaryCSharpExpression.div
       (int64 (-7)) (int64 2)
     = (S_OK, Some (int64 (-3))).
Proof.
  pose (H := accepted_division_is_exact (OM := SpecModel.objects)
               int32_t (int32 (-7)) (int32 2) (-7) 2
               (fun _ => eq_refl)
               (in_range_int32_by_test (-7) eq_refl)
               (in_range_int32_by_test 2 eq_refl)
               eq_refl eq_refl eq_refl eq_refl).
  pose (H' := accepted_division_is_exact (DM := LP64)
                (OM := SpecModel.objects)
                int64_t (int64 (-7)) (int64 2) (-7) 2
                (fun _ => eq_refl)
                (in_range_int64_by_test (-7) eq_refl)
                (in_range_int64_by_test 2 eq_refl)
                eq_refl eq_refl eq_refl eq_refl).
  split; [exact (proj1 H) |].
  split; [exact (proj1 (proj2 H)) | exact (proj1 H')].
Defined.

(** [-1 & 255] on [int32]. *)
Lemma bitwise_results_witness :
  exists r : Z,
    BitwiseComputer int32_t BinaryCSharpExpression.bitwise_and
      (int32 (-1)) (int32 255)
    = (S_OK, Some (int32 r))
    /\ in_range int32_t r.
Proof.
  destruct (bitwise_results_in_range (OM := SpecModel.objects)
              int32_t BinaryCSharpExpression.bitwise_and
              (int32 (-1)) (int32 255) (-1) 255 eq_refl
              (in_range_int32_by_test (-1) eq_refl)
              (in_range_int32_by_test 255 eq_refl)
              eq_refl eq_refl) as [r [Hr [Hin _]]].
  exists r. split; [exact Hr | exact Hin].
Defined.

(** [-8 >> 33] with [shr_u] on [int32]: the result stays negative. *)
Lemma shift_results_witness :
  exists r : Z,
    ShiftComputer int32_t (shift_mask int32_t) BinaryCSharpExpression.shr_u
      (int32 (-8)) (int32 33)
    = (S_OK, Some (int32 r))
    /\ -8 <= r < 0.
Proof.
  destruct (shift_results_in_range (OM := SpecModel.objects)
              int32_t BinaryCSharpExpression.shr_u
              (int32 (-8)) (int32 33) (-8) 33 eq_refl
              (in_range_int32_by_test (-8) eq_refl)
              eq_refl eq_refl) as [r [Hr [_ [_ Hsign]]]].
  exists r. split; [exact Hr |].
  apply Hsign; [discriminate | reflexivity].
Defined.

(** [true || x] on counting operands. *)
Lemma conditional_operators_witness :
  Evaluate (compiled (node BinaryCSharpExpression.conditional_or
                        ELEMENT_TYPE_BOOLEAN (Ok (boolean true))
                        ELEMENT_TYPE_BOOLEAN (Ok (boolean false))))
           Counting.fresh
  = (Some (S_OK, Some (boolean true)), (left_only, [])).
Proof.
  exact (conditional_operators_value
           (compiled (node BinaryCSharpExpression.conditional_or
                        ELEMENT_TYPE_BOOLEAN (Ok (boolean true))
                        ELEMENT_TYPE_BOOLEAN (Ok (boolean false))))
           Counting.fresh (left_only, []) (both_once, [])
           (boolean true) (boolean false) true false
           eq_refl eq_refl eq_refl eq_refl eq_refl eq_refl).
Defined.

(** [2 + 3] over an [int] and a [long] operand: the stored value is a
    [long], as the static type says. *)
Lemma static_type_witness :
  S_OK = S_OK
  /\ exists (T : prim_type) (v : carrier T),
       int64 5 = SpecModel.Primitive T v
       /\ kind_of T = ELEMENT_TYPE_I8.
Proof.
  exact (evaluated_values_have_static_type
           (node BinaryCSharpExpression.add
              ELEMENT_TYPE_I4 (Ok (int32 2)) ELEMENT_TYPE_I8 (Ok (int64 3)))
           [] (ptr_ArithmeticComputer int64_t)
           Counting.fresh (both_once, []) S_OK (int64 5)
           eq_refl eq_refl eq_refl).
Defined.

Lemma convert_fails_with_failing_status (t : CorElementType) (hr : HRESULT) :
  SpecModel.ConvertCorElementTypeToString t = Fail hr -> FAILED hr = true.
Proof.
  destruct t; simpl; intros H; try discriminate H;
    injection H as <-; reflexivity.
Defined.

(** [2 + 3] over two [int] operands compiles and binds a computer. *)
Lemma successful_compile_witness :
  let this := node BinaryCSharpExpression.add
                ELEMENT_TYPE_I4 (Ok (int32 2)) ELEMENT_TYPE_I4 (Ok (int32 3)) in
  compile_status this = S_OK
  /\ (exists c : Computer, computer_ (compiled this) = Some c)
  /\ forall st, fst (Evaluate (compiled this) st) <> None.
Proof.
  exact (successful_compile_binds_computer
           (node BinaryCSharpExpression.add
              ELEMENT_TYPE_I4 (Ok (int32 2)) ELEMENT_TYPE_I4 (Ok (int32 3)))
           [] eq_refl convert_fails_with_failing_status eq_refl).
Defined.

(** [true & 1]: a boolean and an integer under a bitwise operator. *)
Lemma boolean_operators_witness :
  Compile (node BinaryCSharpExpression.bitwise_and
             ELEMENT_TYPE_BOOLEAN (Ok (boolean true))
             ELEMENT_TYPE_I4 (Ok (int32 1))) []
  = (E_FAIL,
     node BinaryCSharpExpression.bitwise_and
       ELEMENT_TYPE_BOOLEAN (Ok (boolean true))
       ELEMENT_TYPE_I4 (Ok (int32 1)),
     [kTypeMismatch]).
Proof.
  refine (proj2 (boolean_operators_need_boolean_operands
                   (node BinaryCSharpExpression.bitwise_and
                      ELEMENT_TYPE_BOOLEAN (Ok (boolean true))
                      ELEMENT_TYPE_I4 (Ok (int32 1)))
                   [] [] [] S_OK S_OK eq_refl eq_refl eq_refl eq_refl _) _).
  - right. split; reflexivity.
  - intros [_ H]. discriminate H.
Defined.

(** A string compared with a class instance falls back to the
    reference comparison; a string compared with an [int] is refused. *)
Lemma equality_witness :
  computer_ (compiled (node BinaryCSharpExpression.eq
                         ELEMENT_TYPE_STRING (Ok (SpecModel.String_ 4096 "a"))
                         ELEMENT_TYPE_CLASS (Ok (SpecModel.Reference 8192))))
  = Some ptr_ConditionalObjectComputer
  /\ compile_status (node BinaryCSharpExpression.eq
                       ELEMENT_TYPE_STRING (Ok (SpecModel.String_ 4096 "a"))
                       ELEMENT_TYPE_I4 (Ok (int32 1)))
     = E_FAIL.
Proof.
  split.
  - exact (proj2 (proj2 (proj1 (equality_of_non_numerical_operands
             (node BinaryCSharpExpression.eq
                ELEMENT_TYPE_STRING (Ok (SpecModel.String_ 4096 "a"))
                ELEMENT_TYPE_CLASS (Ok (SpecModel.Reference 8192)))
             [] eq_refl eq_refl) eq_refl eq_refl))).
  - apply (proj2 (equality_of_non_numerical_operands
             (CH := SpecModel.helpers)
             (node BinaryCSharpExpression.eq
                ELEMENT_TYPE_STRING (Ok (SpecModel.String_ 4096 "a"))
                ELEMENT_TYPE_I4 (Ok (int32 1)))
             [] eq_refl eq_refl)).
    discriminate.
Defined.

(** [x << 1L] is refused; a [short] shifted by an [int] is shifted as
    an [int]. *)
Lemma shift_operand_kinds_witness :
  compile_status (node BinaryCSharpExpression.shl
                    ELEMENT_TYPE_I4 (Ok (int32 1))
                    ELEMENT_TYPE_I8 (Ok (int64 1)))
  = E_FAIL
  /\ computer_ (compiled (node BinaryCSharpExpression.shl
                            ELEMENT_TYPE_I2 (Ok (int32 1))
                            ELEMENT_TYPE_I4 (Ok (int32 1))))
     = Some (ptr_ShiftComputer int32_t 0x1f).
Proof.
  split.
  - refine (f_equal (fun r => fst (fst r))
              (proj1 (shift_operand_kinds (CH := SpecModel.helpers)
                        (node BinaryCSharpExpression.shl
                           ELEMENT_TYPE_I4 (Ok (int32 1))
                           ELEMENT_TYPE_I8 (Ok (int64 1))) [])
                     eq_refl _)).
    discriminate.
  - refine (f_equal (fun r => computer_ (snd (fst r)))
              (proj2 (shift_operand_kinds (CH := SpecModel.helpers)
                        (node BinaryCSharpExpression.shl
                           ELEMENT_TYPE_I2 (Ok (int32 1))
                           ELEMENT_TYPE_I4 (Ok (int32 1))) [])
                     "System.Int32"%string (or_intror eq_refl)
                     eq_refl eq_refl eq_refl)).
Defined.

End MoreWorked.
